(** * zerium: DAG file preparation (zrmash [io.c]) and node construction
      ([zrm/backend.go])

    [ZrmashIo] embeds the C function [zrmash_io_prepare] as a small machine
    over the program points of its source, running against a model of the
    C stream library and of the file system. [Zrm] embeds the Go functions
    [New] and [CreateConsensusEngine] of package [zrm] in a monad of
    actions and errors. [ZrmashIoProofs] and [ZrmProofs] hold what is
    proved of them. [ZrmService] embeds the methods of the running service
    ([Zeriumbase], [StartMining], [Start], [Stop] and the like);
    [ZrmashIoMore] and [ZrmServiceProofs] hold further properties of the
    C function and of the Go package.

    Integer model (C part): LP64, that is [uint64_t] and [size_t] are
    64-bit unsigned and [long int] is 64-bit two's complement. *)

From Stdlib Require Import ZArith Lia List Bool.
From Stdlib Require Import Strings.Byte.
From Stdlib Require Import Sorting.Sorted.
From stdpp Require Import base gmap strings list pretty.

Local Open Scope Z_scope.

Module ZrmashIo.

(** ** Machine integers *)

Definition wrap64 (z : Z) : Z := z mod 2 ^ 64.

(** The cast [(long int) x] of a [uint64_t] value [x]. *)
Definition to_long (x : Z) : Z := if x <? 2 ^ 63 then x else x - 2 ^ 64.

(** ** Declarations of [io.h] *)

Inductive zrmash_io_rc :=
  | ZRMASH_IO_FAIL
  | ZRMASH_IO_MEMO_SIZE_MISMATCH
  | ZRMASH_IO_MEMO_MISMATCH
  | ZRMASH_IO_MEMO_MATCH.

#[global] Instance zrmash_io_rc_eq_dec : EqDecision zrmash_io_rc.
Proof. solve_decision. Defined.

(** Modelled from the spec: the macro [ZRMASH_DAG_MAGIC_NUM_SIZE] of [io.h],
    which is not among the sources; the on-disk layout starts with an
    8-byte magic number. *)
Definition ZRMASH_DAG_MAGIC_NUM_SIZE : Z := 8.

(** A seed hash ([zrmash_h256_t]) is a block of 32 bytes. *)
Definition zrmash_h256_t := list byte.

(** What [zrmash_io_prepare] uses from [io.h] and [io.c] without their text
    being available: the magic constant, the revision, the two file-name
    helpers, and the byte order of the host (the magic number is read in
    host order). Every result below holds for each choice of them. *)
Record platform := {
  ZRMASH_DAG_MAGIC_NUM : Z;
  ZRMASH_REVISION : Z;
  zrmash_io_mutable_name : Z -> zrmash_h256_t -> string;
  (* [None] is the NULL returned when the path cannot be allocated *)
  zrmash_io_create_filename : string -> string -> Z -> option string;
  host_big_endian : bool
}.

(** ** Streams and the file system *)

Inductive FILEptr :=
  | NULL
  | Stream (fd : nat).

#[global] Instance FILEptr_eq_dec : EqDecision FILEptr.
Proof. solve_decision. Defined.

(** An open stream: the file it is bound to, its position, and the bytes
    written but not yet flushed (offset and value, oldest first). *)
Record stream := {
  s_path : string;
  s_pos : Z;
  s_pending : list (Z * byte)
}.

Inductive io_call :=
  | CallMkdir (dirname : string)
  | CallFopen (path mode : string)
  | CallFileSize (f : FILEptr)
  | CallFread (f : FILEptr) (size nmemb : Z)
  | CallFseek (f : FILEptr) (offset : Z)
  | CallFputc (c : byte) (f : FILEptr)
  | CallFflush (f : FILEptr)
  | CallFclose (f : FILEptr)
  | CallFree.

(** A call together with whether it succeeded. *)
Definition io_event : Type := io_call * bool.

Record world := {
  w_dirs : gset string;
  w_files : gmap string (list byte);
  w_streams : gmap nat stream;
  w_live : nat;                 (* heap blocks not yet freed *)
  w_log : list string;          (* ZRMASH_CRITICAL messages *)
  w_calls : list io_event       (* library calls, oldest first *)
}.

Definition set_dirs (d : gset string) (w : world) : world :=
  {| w_dirs := d; w_files := w_files w; w_streams := w_streams w;
     w_live := w_live w; w_log := w_log w; w_calls := w_calls w |}.

Definition set_files (m : gmap string (list byte)) (w : world) : world :=
  {| w_dirs := w_dirs w; w_files := m; w_streams := w_streams w;
     w_live := w_live w; w_log := w_log w; w_calls := w_calls w |}.

Definition set_streams (m : gmap nat stream) (w : world) : world :=
  {| w_dirs := w_dirs w; w_files := w_files w; w_streams := m;
     w_live := w_live w; w_log := w_log w; w_calls := w_calls w |}.

Definition set_live (n : nat) (w : world) : world :=
  {| w_dirs := w_dirs w; w_files := w_files w; w_streams := w_streams w;
     w_live := n; w_log := w_log w; w_calls := w_calls w |}.

Definition called (c : io_call) (ok : bool) (w : world) : world :=
  {| w_dirs := w_dirs w; w_files := w_files w; w_streams := w_streams w;
     w_live := w_live w; w_log := w_log w; w_calls := w_calls w ++ [(c, ok)] |}.

Definition ZRMASH_CRITICAL (msg : string) (w : world) : world :=
  {| w_dirs := w_dirs w; w_files := w_files w; w_streams := w_streams w;
     w_live := w_live w; w_log := w_log w ++ [msg]; w_calls := w_calls w |}.

(** Which library calls fail for reasons outside the model (permissions,
    disk space, a medium error). [true] means the call fails. *)
Record faults := {
  fault_mkdir : bool;
  fault_fopen_rb : bool;
  fault_file_size : bool;
  fault_fread : bool;
  fault_fopen_wb : bool;
  fault_fseek : bool;
  fault_fputc : bool;
  fault_fflush : bool
}.

Definition no_faults : faults :=
  {| fault_mkdir := false; fault_fopen_rb := false; fault_file_size := false;
     fault_fread := false; fault_fopen_wb := false; fault_fseek := false;
     fault_fputc := false; fault_fflush := false |}.

Definition file_length (c : list byte) : Z := Z.of_nat (length c).

(** Store one byte at an offset; a store past the end fills the gap with
    zero bytes (POSIX). *)
Definition write_at (c : list byte) (ob : Z * byte) : list byte :=
  let '(off, b) := ob in
  if off <? file_length c
  then <[Z.to_nat off := b]> c
  else c ++ replicate (Z.to_nat (off - file_length c)) x00 ++ [b].

Definition commit (s : stream) (files : gmap string (list byte))
  : gmap string (list byte) :=
  match s_pending s with
  | [] => files
  | _ :: _ => <[s_path s := foldl write_at (default [] (files !! s_path s)) (s_pending s)]> files
  end.

Definition get_stream (w : world) (f : FILEptr) : option stream :=
  match f with
  | NULL => None
  | Stream fd => w_streams w !! fd
  end.

Definition put_stream (f : FILEptr) (s : stream) (w : world) : world :=
  match f with
  | NULL => w
  | Stream fd => set_streams (<[fd := s]> (w_streams w)) w
  end.

Section Library.

Variable io : faults.

(** Modelled from the spec: [zrmash_mkdir] of [io_posix.c], which is not
    among the sources. The root directory is created if absent; the call
    reports whether the directory exists afterwards. *)
Definition zrmash_mkdir (w : world) (dirname : string) : bool * world :=
  if fault_mkdir io
  then (false, called (CallMkdir dirname) false w)
  else (true, called (CallMkdir dirname) true (set_dirs ({[dirname]} ∪ w_dirs w) w)).

Definition open_stream (w : world) (path : string) : FILEptr * world :=
  let fd := fresh (dom (w_streams w)) in
  (Stream fd,
   set_streams (<[fd := {| s_path := path; s_pos := 0; s_pending := [] |}]> (w_streams w)) w).

(** Modelled from the spec: [zrmash_fopen] of [io_posix.c], a wrapper of
    [fopen]. Mode [rb+] opens an existing file for update and fails when
    there is none; mode [wb+] creates the file or truncates it to length
    zero. Other modes are not used by the function and are refused. *)
Definition zrmash_fopen (w : world) (path mode : string) : FILEptr * world :=
  if String.eqb mode "rb+" then
    if fault_fopen_rb io then (NULL, called (CallFopen path mode) false w)
    else match w_files w !! path with
         | None => (NULL, called (CallFopen path mode) false w)
         | Some _ => open_stream (called (CallFopen path mode) true w) path
         end
  else if String.eqb mode "wb+" then
    if fault_fopen_wb io then (NULL, called (CallFopen path mode) false w)
    else open_stream (set_files (<[path := []]> (w_files w))
                        (called (CallFopen path mode) true w)) path
  else (NULL, called (CallFopen path mode) false w).

(** Modelled from the spec: [zrmash_file_size] of [io_posix.c]: the total
    size of the file behind the stream, or failure. *)
Definition zrmash_file_size (w : world) (f : FILEptr) : option Z * world :=
  if fault_file_size io then (None, called (CallFileSize f) false w)
  else match get_stream w f with
       | None => (None, called (CallFileSize f) false w)
       | Some s =>
           match w_files w !! s_path s with
           | None => (None, called (CallFileSize f) false w)
           | Some c => (Some (file_length c), called (CallFileSize f) true w)
           end
       end.

(** [fread(ptr, size, nmemb, f)]: the number of complete items read and
    the bytes of these items; the position advances over what was read. *)
Definition fread (w : world) (f : FILEptr) (size nmemb : Z)
  : (Z * list byte) * world :=
  if fault_fread io then ((0, []), called (CallFread f size nmemb) false w)
  else match get_stream w f with
       | None => ((0, []), called (CallFread f size nmemb) false w)
       | Some s =>
           let c := default [] (w_files w !! s_path s) in
           let avail := Z.max 0 (file_length c - s_pos s) in
           let n := if size <=? 0 then 0 else Z.min nmemb (avail / size) in
           let got := take (Z.to_nat (n * size)) (drop (Z.to_nat (s_pos s)) c) in
           let s' := {| s_path := s_path s;
                        s_pos := s_pos s + Z.min avail (size * nmemb);
                        s_pending := s_pending s |} in
           ((n, got),
            put_stream f s' (called (CallFread f size nmemb) (n =? nmemb) w))
       end.

(** [fseek(f, offset, SEEK_SET)]: 0 on success. A negative offset is refused;
    an offset past the end is allowed. *)
Definition fseek (w : world) (f : FILEptr) (offset : Z) : Z * world :=
  if fault_fseek io then (-1, called (CallFseek f offset) false w)
  else match get_stream w f with
       | None => (-1, called (CallFseek f offset) false w)
       | Some s =>
           if offset <? 0 then (-1, called (CallFseek f offset) false w)
           else (0, put_stream f {| s_path := s_path s; s_pos := offset;
                                    s_pending := s_pending s |}
                      (called (CallFseek f offset) true w))
       end.

(** [fputc(c, f)]: the byte goes to the stream's buffer; [None] is EOF. *)
Definition fputc (w : world) (c : byte) (f : FILEptr) : option byte * world :=
  if fault_fputc io then (None, called (CallFputc c f) false w)
  else match get_stream w f with
       | None => (None, called (CallFputc c f) false w)
       | Some s =>
           (Some c, put_stream f {| s_path := s_path s; s_pos := s_pos s + 1;
                                    s_pending := s_pending s ++ [(s_pos s, c)] |}
                      (called (CallFputc c f) true w))
       end.

(** [fflush(f)]: 0 on success; the buffered bytes reach the file. *)
Definition fflush (w : world) (f : FILEptr) : Z * world :=
  if fault_fflush io then (-1, called (CallFflush f) false w)
  else match get_stream w f with
       | None => (-1, called (CallFflush f) false w)
       | Some s =>
           (0, put_stream f {| s_path := s_path s; s_pos := s_pos s; s_pending := [] |}
                 (set_files (commit s (w_files w)) (called (CallFflush f) true w)))
       end.

(** [fclose(f)]: buffered bytes are delivered and the stream is gone. The
    function never looks at the result. *)
Definition fclose (w : world) (f : FILEptr) : world :=
  match f with
  | NULL => called (CallFclose f) false w
  | Stream fd =>
      match w_streams w !! fd with
      | None => called (CallFclose f) false w
      | Some s =>
          set_streams (delete fd (w_streams w))
            (set_files (commit s (w_files w)) (called (CallFclose f) true w))
      end
  end.

(** [free(p)] *)
Definition free (w : world) : world :=
  called CallFree true (set_live (Nat.pred (w_live w)) w).

End Library.

(** Decoding of the 8 bytes read into a [uint64_t]. *)
Definition le_decode (bs : list byte) : Z :=
  fold_right (fun b acc => Z.of_N (Byte.to_N b) + 256 * acc) 0 bs.

Definition decode_u64 (big_endian : bool) (bs : list byte) : Z :=
  if big_endian then le_decode (rev bs) else le_decode bs.

(** ** The function, program point by program point

    A label is the source line of the statement it stands for. *)

Inductive label :=
  | L31   (* enum zrmash_io_rc ret = ZRMASH_IO_FAIL; *)
  | L36   (* if (!zrmash_mkdir(dirname)) *)
  | L41   (* zrmash_io_mutable_name(..); tmpfile = zrmash_io_create_filename(..); if (!tmpfile) *)
  | L49   (* if (!force_create) *)
  | L51   (* f = zrmash_fopen(tmpfile, "rb+"); if (f) *)
  | L54   (* if (!zrmash_file_size(f, &found_size)) *)
  | L59   (* if (file_size != found_size - ZRMASH_DAG_MAGIC_NUM_SIZE) *)
  | L66   (* if (fread(&magic_num, ZRMASH_DAG_MAGIC_NUM_SIZE, 1, f) != 1) *)
  | L73   (* if (magic_num != ZRMASH_DAG_MAGIC_NUM) *)
  | L78   (* ret = ZRMASH_IO_MEMO_MATCH; goto set_file; *)
  | L84   (* f = zrmash_fopen(tmpfile, "wb+"); if (!f) *)
  | L90   (* if (fseek(f, (long int)(file_size + ZRMASH_DAG_MAGIC_NUM_SIZE - 1), SEEK_SET) != 0) *)
  | L95   (* if (fputc('\n', f) == EOF) *)
  | L100  (* if (fflush(f) != 0) *)
  | L105  (* ret = ZRMASH_IO_MEMO_MISMATCH; goto set_file; *)
  | L108  (* ret = ZRMASH_IO_MEMO_MATCH; *)
  | L110  (* set_file: *output_file = f; *)
  | L112  (* free_memo: free(tmpfile); *)
  | L114. (* end: return ret; *)

#[global] Instance label_eq_dec : EqDecision label.
Proof. solve_decision. Defined.

Record args := {
  dirname : string;
  seedhash : zrmash_h256_t;
  file_size : Z;          (* uint64_t *)
  force_create : bool
}.

(** The local variables. [tmpfile] holds the text of the allocated path
    once line 42 has succeeded. *)
Record locals := {
  ret : zrmash_io_rc;
  tmpfile : string;
  f : FILEptr;
  found_size : Z;
  magic_num : Z
}.

Definition set_ret (r : zrmash_io_rc) (v : locals) : locals :=
  {| ret := r; tmpfile := tmpfile v; f := f v;
     found_size := found_size v; magic_num := magic_num v |}.

Definition set_tmpfile (p : string) (v : locals) : locals :=
  {| ret := ret v; tmpfile := p; f := f v;
     found_size := found_size v; magic_num := magic_num v |}.

Definition set_f (p : FILEptr) (v : locals) : locals :=
  {| ret := ret v; tmpfile := tmpfile v; f := p;
     found_size := found_size v; magic_num := magic_num v |}.

Definition set_found_size (n : Z) (v : locals) : locals :=
  {| ret := ret v; tmpfile := tmpfile v; f := f v;
     found_size := n; magic_num := magic_num v |}.

Definition set_magic_num (n : Z) (v : locals) : locals :=
  {| ret := ret v; tmpfile := tmpfile v; f := f v;
     found_size := found_size v; magic_num := n |}.

(** Double quote, for the messages that quote the path. *)
Definition dq : string := String (Ascii.ascii_of_nat 34) EmptyString.

Definition quoted (s : string) : string := dq +:+ s +:+ dq.

(** A state of the run: where control is, the locals, the world, what has
    been stored through [output_file] so far, and the labels executed. *)
Record config := {
  pc : label;
  vars : locals;
  env : world;
  output_file : option FILEptr;
  visited : list label
}.

(** The argument of the [fseek] of line 90,
    [(long int)(file_size + ZRMASH_DAG_MAGIC_NUM_SIZE - 1)], computed in
    [uint64_t] and then cast. *)
Definition last_byte_offset (file_size : Z) : Z :=
  to_long (wrap64 (wrap64 (file_size + ZRMASH_DAG_MAGIC_NUM_SIZE) - 1)).

Section Prepare.

Variable P : platform.
Variable io : faults.
Variable a : args.

Definition exec (l : label) (v : locals) (w : world) (out : option FILEptr)
  : label * locals * world * option FILEptr :=
  match l with
  | L31 =>
      (* also [errno = 0]; the function never reads [errno] *)
      (L36, set_ret ZRMASH_IO_FAIL v, w, out)
  | L36 =>
      let '(ok, w1) := zrmash_mkdir io w (dirname a) in
      if ok then (L41, v, w1, out)
      else (L114, v, ZRMASH_CRITICAL "Could not create the zrmash directory" w1, out)
  | L41 =>
      let mutable_name := zrmash_io_mutable_name P (ZRMASH_REVISION P) (seedhash a) in
      match zrmash_io_create_filename P (dirname a) mutable_name
              (Z.of_nat (String.length mutable_name)) with
      | None =>
          (L114, v, ZRMASH_CRITICAL "Could not create the full DAG pathname" w, out)
      | Some p => (L49, set_tmpfile p v, set_live (S (w_live w)) w, out)
      end
  | L49 => if negb (force_create a) then (L51, v, w, out) else (L84, v, w, out)
  | L51 =>
      let '(p, w1) := zrmash_fopen io w (tmpfile v) "rb+" in
      match p with
      | Stream _ => (L54, set_f p v, w1, out)
      | NULL => (L84, set_f p v, w1, out)
      end
  | L54 =>
      let '(r, w1) := zrmash_file_size io w (f v) in
      match r with
      | None =>
          (L112, v,
           ZRMASH_CRITICAL ("Could not query size of DAG file: " +:+ quoted (tmpfile v))
             (fclose w1 (f v)), out)
      | Some n => (L59, set_found_size n v, w1, out)
      end
  | L59 =>
      if negb (file_size a =? wrap64 (found_size v - ZRMASH_DAG_MAGIC_NUM_SIZE))
      then (L112, set_ret ZRMASH_IO_MEMO_SIZE_MISMATCH v, fclose w (f v), out)
      else (L66, v, w, out)
  | L66 =>
      let '((n, bytes), w1) := fread io w (f v) ZRMASH_DAG_MAGIC_NUM_SIZE 1 in
      if negb (n =? 1)
      then (L112, set_ret ZRMASH_IO_MEMO_SIZE_MISMATCH v,
            ZRMASH_CRITICAL ("Could not read from DAG file: " +:+ quoted (tmpfile v))
              (fclose w1 (f v)), out)
      else (L73, set_magic_num (decode_u64 (host_big_endian P) bytes) v, w1, out)
  | L73 =>
      if negb (magic_num v =? ZRMASH_DAG_MAGIC_NUM P)
      then (L112, set_ret ZRMASH_IO_MEMO_SIZE_MISMATCH v, fclose w (f v), out)
      else (L78, v, w, out)
  | L78 => (L110, set_ret ZRMASH_IO_MEMO_MATCH v, w, out)
  | L84 =>
      let '(p, w1) := zrmash_fopen io w (tmpfile v) "wb+" in
      match p with
      | NULL =>
          (L112, set_f p v,
           ZRMASH_CRITICAL ("Could not create DAG file: " +:+ quoted (tmpfile v)) w1, out)
      | Stream _ => (L90, set_f p v, w1, out)
      end
  | L90 =>
      let '(r, w1) := fseek io w (f v) (last_byte_offset (file_size a)) in
      if negb (r =? 0)
      then (L112, v,
            ZRMASH_CRITICAL ("Could not seek to the end of DAG file: " +:+ quoted (tmpfile v)
                             +:+ ". Insufficient space?")
              (fclose w1 (f v)), out)
      else (L95, v, w1, out)
  | L95 =>
      let '(r, w1) := fputc io w x0a (f v) in
      match r with
      | None =>
          (L112, v,
           ZRMASH_CRITICAL ("Could not write in the end of DAG file: " +:+ quoted (tmpfile v)
                            +:+ ". Insufficient space?")
             (fclose w1 (f v)), out)
      | Some _ => (L100, v, w1, out)
      end
  | L100 =>
      let '(r, w1) := fflush io w (f v) in
      if negb (r =? 0)
      then (L112, v,
            ZRMASH_CRITICAL ("Could not flush at end of DAG file: " +:+ quoted (tmpfile v)
                             +:+ ". Insufficient space?")
              (fclose w1 (f v)), out)
      else (L105, v, w1, out)
  | L105 => (L110, set_ret ZRMASH_IO_MEMO_MISMATCH v, w, out)
  | L108 => (L110, set_ret ZRMASH_IO_MEMO_MATCH v, w, out)
  | L110 => (L112, v, w, Some (f v))
  | L112 => (L114, v, free w, out)
  | L114 => (L114, v, w, out)
  end.

(** One step; the [return] at line 114 ends the run. *)
Definition step (c : config) : config :=
  match pc c with
  | L114 => c
  | l =>
      let '(l', v', w', out') := exec l (vars c) (env c) (output_file c) in
      {| pc := l'; vars := v'; env := w'; output_file := out';
         visited := visited c ++ [l] |}
  end.

Fixpoint run (fuel : nat) (c : config) : config :=
  match fuel with
  | O => c
  | S n => run n (step c)
  end.

(** On entry the locals are indeterminate; none is read before it is
    assigned, so any initial values do. *)
Definition entry (w : world) : config :=
  {| pc := L31;
     vars := {| ret := ZRMASH_IO_FAIL; tmpfile := ""; f := NULL;
                found_size := 0; magic_num := 0 |};
     env := w; output_file := None; visited := [] |}.

(** No label is executed twice, so as many steps as there are labels reach
    the [return]. *)
Definition fuel : nat := 19.

End Prepare.

(** The outcome of a call: the value returned, what was stored through the
    out-parameter ([None]: nothing was stored and the caller's variable
    keeps its value), the world after the call, and the path taken. *)
Record outcome := {
  returned : zrmash_io_rc;
  stored : option FILEptr;
  after : world;
  path_taken : list label
}.

Definition zrmash_io_prepare (P : platform) (io : faults) (w : world)
    (dirname : string) (seedhash : zrmash_h256_t)
    (file_size : Z) (force_create : bool) : outcome :=
  let a := {| dirname := dirname; seedhash := seedhash;
              file_size := file_size; force_create := force_create |} in
  let c := run P io a fuel (entry w) in
  {| returned := ret (vars c); stored := output_file c;
     after := env c; path_taken := visited c |}.

(** The caller's [FILE*] variable after the call. *)
Definition output_after (before : FILEptr) (o : outcome) : FILEptr :=
  default before (stored o).

(** The library calls made during the call, oldest first. *)
Definition calls_made (w : world) (o : outcome) : list io_event :=
  drop (length (w_calls w)) (w_calls (after o)).

(** The path of the DAG file, when it can be built. *)
Definition dag_path (P : platform) (dirname : string) (seedhash : zrmash_h256_t)
  : option string :=
  let name := zrmash_io_mutable_name P (ZRMASH_REVISION P) seedhash in
  zrmash_io_create_filename P dirname name (Z.of_nat (String.length name)).

(** *** A platform and a world to run on *)

Definition demo_platform : platform :=
  {| ZRMASH_DAG_MAGIC_NUM := 0xFEE1DEADBADDCAFE;
     ZRMASH_REVISION := 23;
     zrmash_io_mutable_name := fun rev _ => "full-R" +:+ pretty rev;
     zrmash_io_create_filename := fun d n _ => Some (d +:+ "/" +:+ n);
     host_big_endian := false |}.

Definition empty_world : world :=
  {| w_dirs := ∅; w_files := ∅; w_streams := ∅; w_live := 0;
     w_log := []; w_calls := [] |}.

Definition with_file (path : string) (c : list byte) (w : world) : world :=
  set_files (<[path := c]> (w_files w)) w.

Definition magic_bytes : list byte :=
  [xfe; xca; xdd; xba; xad; xde; xe1; xfe].

(** ** Notions used to state what the function does *)

(** The magic number at the head of a file, as line 66 reads it. *)
Definition leading_magic (P : platform) (content : list byte) : Z :=
  decode_u64 (host_big_endian P) (take (Z.to_nat ZRMASH_DAG_MAGIC_NUM_SIZE) content).

(** A call that may fail on a run that still creates the file: the attempt
    of line 51 to open a file that is not there. *)
Definition opens_existing (c : io_call) : bool :=
  match c with
  | CallFopen _ mode => String.eqb mode "rb+"
  | _ => false
  end.

Definition tolerated (e : io_event) : bool := e.2 || opens_existing e.1.

(** A successful run of the creation path: line 84 is executed and every
    library call made on the way succeeds, the attempt to open an existing
    file apart. *)
Definition creation_succeeded (w : world) (o : outcome) : Prop :=
  L84 ∈ path_taken o /\ forallb tolerated (calls_made w o) = true.

(** Where the stream handed to the caller stands. *)
Definition handle_position (o : outcome) : option Z :=
  match stored o with
  | Some p => s_pos <$> get_stream (after o) p
  | None => None
  end.

(** The stream handed to the caller stands at the start of the file. *)
Definition positioned_at_start (o : outcome) : Prop :=
  handle_position o = Some 0.

(** The failures that count as I/O failures of the function: of the
    directory creation, of the size query, of the read of the magic number,
    and of opening, seeking in, writing to and flushing the fresh file. *)
Definition io_failure_listed (c : io_call) : bool :=
  match c with
  | CallMkdir _ | CallFileSize _ | CallFread _ _ _
  | CallFseek _ _ | CallFputc _ _ | CallFflush _ => true
  | CallFopen _ mode => String.eqb mode "wb+"
  | CallFclose _ | CallFree => false
  end.



(** The statements that look at an existing file (lines 51 to 79), and the
    calls that do. *)
Definition checks_existing (l : label) : bool :=
  match l with
  | L51 | L54 | L59 | L66 | L73 | L78 => true
  | _ => false
  end.

Definition reads_existing (c : io_call) : bool :=
  match c with
  | CallFopen _ mode => String.eqb mode "rb+"
  | CallFileSize _ | CallFread _ _ _ => true
  | _ => false
  end.

(** The label executed right after the first execution of [l], if any. *)
Fixpoint executed_after (l : label) (path : list label) : option label :=
  match path with
  | [] => None
  | x :: rest => if decide (x = l) then head rest else executed_after l rest
  end.

(** *** Sample runs *)

Definition demo_seed : zrmash_h256_t := replicate 32 x00.

(** A DAG file of 10 bytes with the right magic number. *)
Definition demo_stale_world : world :=
  with_file "dag/full-R23" (magic_bytes ++ [x01; x02]) empty_world.

(** A file of 10 bytes that starts with zeros. *)
Definition demo_foreign_world : world :=
  with_file "dag/full-R23" (replicate 8 x00 ++ [x01; x02]) empty_world.

Definition read_fault : faults :=
  {| fault_mkdir := false; fault_fopen_rb := false; fault_file_size := false;
     fault_fread := true; fault_fopen_wb := false; fault_fseek := false;
     fault_fputc := false; fault_fflush := false |}.

(** Forced creation of a DAG file for a payload of 4 bytes. *)
Definition demo_creation : outcome :=
  zrmash_io_prepare demo_platform no_faults empty_world "dag" demo_seed 4 true.

(** A file of the expected size whose magic number cannot be read. *)
Definition demo_unreadable : outcome :=
  zrmash_io_prepare demo_platform read_fault demo_stale_world "dag" demo_seed 2 false.

End ZrmashIo.

Module Zrm.

(** ** Package [params] *)

(** [BloomBitsBlocks] is the number of blocks a single bloom bit section
    vector contains. *)
Definition BloomBitsBlocks : Z := 4096.

(** ** Types of the packages [zrm] imports *)

(** [downloader.SyncMode] is an [int]. *)
Definition downloader_SyncMode := Z.

Definition Address := Z.
Definition Hash := Z.
Definition Database := nat.
Definition error := string.

(** [params.ChainConfig], as far as [zrm] looks into it: the [Clique] field
    is a pointer, [None] when it is nil. *)
Record CliqueConfig := { Period : Z; Epoch : Z }.

Record ChainConfig := {
  ChainId : Z;
  Clique : option CliqueConfig
}.

(** [Config]. Of the [TxPool] and [GPO] sub-structures only the fields that
    [DefaultConfig] or [New] name are kept; pointers are options. [New]
    reads the field [Etherbase] under the name [Zeriumbase]. *)
Record Config := {
  Genesis : option Z;
  NetworkId : Z;
  SyncMode : downloader_SyncMode;
  LightServ : Z;
  LightPeers : Z;
  SkipBcVersionCheck : bool;
  DatabaseHandles : Z;
  DatabaseCache : Z;
  Etherbase : Address;
  MinerThreads : Z;
  ExtraData : list byte;
  GasPrice : option Z;
  EthashCacheDir : string;
  EthashCachesInMem : Z;
  EthashCachesOnDisk : Z;
  EthashDatasetDir : string;
  EthashDatasetsInMem : Z;
  EthashDatasetsOnDisk : Z;
  TxPool_Journal : string;
  GPO_Blocks : Z;
  GPO_Percentile : Z;
  GPO_Default : option Z;
  EnablePreimageRecording : bool;
  DocRoot : string;
  PowFake : bool;
  PowTest : bool;
  PowShared : bool
}.

(** A consensus engine, as the constructor calls that make it. *)
Inductive Engine :=
  | clique_New (config : CliqueConfig) (db : Database)
  | zrmash_NewFaker
  | zrmash_NewTester
  | zrmash_NewShared
  | zrmash_New (cachedir : string) (cachesinmem cachesondisk : Z)
               (dagdir : string) (dagsinmem dagsondisk : Z)
  | SetThreads (threads : Z) (engine : Engine).

(** The third result of [core.SetupGenesisBlock]: nil, a
    [*params.ConfigCompatError] (with its [RewindTo]) or another error. *)
Inductive genesis_error :=
  | GenesisOk
  | ConfigCompatError (RewindTo : Z)
  | GenesisFailure (e : error).

(** What [New] and [CreateConsensusEngine] call without its text being
    among the sources: the service context of package [node], and
    functions and constants of [downloader], [core], [params] and [rlp].
    Every result below holds for each choice of them. *)
Record externals := {
  FastSync : downloader_SyncMode;
  LightSync : downloader_SyncMode;
  IsValid : downloader_SyncMode -> bool;
  Shannon : Z;
  DefaultTxPoolConfig_Journal : string;
  OpenDatabase : string -> Z -> Z -> Database + error;
  IsLDBDatabase : Database -> bool;
  ResolvePath : string -> string;
  SetupGenesisBlock : Database -> option Z -> ChainConfig * Hash * genesis_error;
  GetBlockChainVersion : Database -> Z;
  BlockChainVersion : Z;
  NewBlockChain : Database -> ChainConfig -> Engine -> bool -> option error;
  NewProtocolManager :
    ChainConfig -> downloader_SyncMode -> Z -> Engine -> Database -> option error;
  DefaultExtraData : list byte;
  MaximumExtraDataSize : Z
}.

(** What a call does besides returning, in order. *)
Inductive action :=
  | LogInfo (msg : string)
  | LogWarn (msg : string)
  | DoOpenDatabase (name : string)
  | DoMeter (db : Database)
  | DoUpgradeDeduplicateData (db : Database)
  | DoSetupGenesisBlock (db : Database)
  | DoCreateEngine (e : Engine)
  | DoNewBloomIndexer (db : Database) (size : Z)
  | DoWriteBlockChainVersion (db : Database) (v : Z)
  | DoNewBlockChain (db : Database)
  | DoSetHead (n : Z)
  | DoWriteChainConfig (db : Database) (h : Hash)
  | DoBloomIndexerStart
  | DoNewTxPool (journal : string)
  | DoNewProtocolManager
  | DoNewMiner
  | DoSetExtra (extra : list byte)
  | DoNewOracle (default : option Z).

(** The [Zerium] object, as far as [New] fills it with values. *)
Record Zerium := {
  config : Config;
  chainDb : Database;
  chainConfig : ChainConfig;
  engine : Engine;
  networkId : Z;
  gasPrice : option Z;
  zeriumbase : Address
}.

(** ** Calls that act and may fail

    A computation carries the actions performed so far and ends with a
    value or with the error returned to the caller ([inr e] stands for the
    pair of nil and [e]). *)
Definition M (A : Type) : Type := list action -> (A + error) * list action.

#[global] Instance M_ret : MRet M := fun A x t => (inl x, t).

#[global] Instance M_bind : MBind M := fun A B k m t =>
  match m t with
  | (inl x, t') => k x t'
  | (inr e, t') => (inr e, t')
  end.

Definition act (a : action) : M unit := fun t => (inl tt, t ++ [a]).

Definition acts (l : list action) : M unit := fun t => (inl tt, t ++ l).

Definition fail {A : Type} (e : error) : M A := fun t => (inr e, t).

(** A call from a state in which nothing has been done yet. *)
Definition call {A : Type} (m : M A) : (A + error) * list action := m [].

Definition newline : string := String (Ascii.ascii_of_nat 10) EmptyString.

Section WithExternals.

Variable X : externals.

(** [DefaultConfig], as the variable is initialised ([init] then fills in
    [EthashDatasetDir] from the environment). *)
Definition DefaultConfig : Config :=
  {| Genesis := None;
     NetworkId := 1;
     SyncMode := FastSync X;
     LightServ := 0;
     LightPeers := 20;
     SkipBcVersionCheck := false;
     DatabaseHandles := 0;
     DatabaseCache := 128;
     Etherbase := 0;
     MinerThreads := 0;
     ExtraData := [];
     GasPrice := Some (18 * Shannon X);
     EthashCacheDir := "zrmash";
     EthashCachesInMem := 2;
     EthashCachesOnDisk := 3;
     EthashDatasetDir := "";
     EthashDatasetsInMem := 1;
     EthashDatasetsOnDisk := 2;
     TxPool_Journal := DefaultTxPoolConfig_Journal X;
     GPO_Blocks := 10;
     GPO_Percentile := 50;
     GPO_Default := None;
     EnablePreimageRecording := false;
     DocRoot := "";
     PowFake := false;
     PowTest := false;
     PowShared := false |}.

(** [CreateDB] *)
Definition CreateDB (config : Config) (name : string) : M Database :=
  _ ← act (DoOpenDatabase name);
  match OpenDatabase X name (DatabaseCache config) (DatabaseHandles config) with
  | inr err => fail err
  | inl db =>
      _ ← (if IsLDBDatabase X db then act (DoMeter db) else mret tt);
      mret db
  end.

(** [makeExtraData] *)
Definition makeExtraData (extra : list byte) : list byte :=
  let extra := if (length extra =? 0)%nat then DefaultExtraData X else extra in
  if MaximumExtraDataSize X <? Z.of_nat (length extra) then [] else extra.

(** [CreateConsensusEngine]: the engine, and the warning logged on the way. *)
Definition CreateConsensusEngine (config : Config) (chainConfig : ChainConfig)
    (db : Database) : Engine * list action :=
  match Clique chainConfig with
  | Some clique => (clique_New clique db, [])
  | None =>
      if PowFake config then
        (zrmash_NewFaker, [LogWarn "Ethash used in fake mode"])
      else if PowTest config then
        (zrmash_NewTester, [LogWarn "Ethash used in test mode"])
      else if PowShared config then
        (zrmash_NewShared, [LogWarn "Ethash used in shared mode"])
      else
        let engine :=
          zrmash_New (ResolvePath X (EthashCacheDir config))
            (EthashCachesInMem config) (EthashCachesOnDisk config)
            (EthashDatasetDir config)
            (EthashDatasetsInMem config) (EthashDatasetsOnDisk config) in
        (SetThreads (-1) engine, [])
  end.

(** [New] *)
Definition New (config : Config) : M Zerium :=
  if SyncMode config =? LightSync X then
    fail "can't run zrm.Zerium in light sync mode, use les.LightZerium"
  else if negb (IsValid X (SyncMode config)) then
    fail ("invalid sync mode " +:+ pretty (SyncMode config))
  else
    chainDb ← CreateDB config "chaindata";
    _ ← act (DoUpgradeDeduplicateData chainDb);
    _ ← act (DoSetupGenesisBlock chainDb);
    let '(chainConfig, genesisHash, genesisErr) :=
      SetupGenesisBlock X chainDb (Genesis config) in
    match genesisErr with
    | GenesisFailure e => fail e
    | _ =>
        _ ← act (LogInfo "Initialised chain configuration");
        let '(engine, warned) := CreateConsensusEngine config chainConfig chainDb in
        _ ← acts warned;
        _ ← act (DoCreateEngine engine);
        _ ← act (DoNewBloomIndexer chainDb BloomBitsBlocks);
        let zrm :=
          {| config := config; chainDb := chainDb; chainConfig := chainConfig;
             engine := engine; networkId := NetworkId config;
             gasPrice := GasPrice config; zeriumbase := Etherbase config |} in
        _ ← act (LogInfo "Initialising Zerium protocol");
        _ ← (if negb (SkipBcVersionCheck config) then
               let bcVersion := GetBlockChainVersion X chainDb in
               if negb (bcVersion =? BlockChainVersion X) && negb (bcVersion =? 0) then
                 fail ("Blockchain DB version mismatch (" +:+ pretty bcVersion
                       +:+ " / " +:+ pretty (BlockChainVersion X)
                       +:+ "). Run gzrm upgradedb." +:+ newline)
               else act (DoWriteBlockChainVersion chainDb (BlockChainVersion X))
             else mret tt);
        _ ← act (DoNewBlockChain chainDb);
        match NewBlockChain X chainDb chainConfig engine
                (EnablePreimageRecording config) with
        | Some err => fail err
        | None =>
            _ ← match genesisErr with
                | ConfigCompatError rewindTo =>
                    _ ← act (LogWarn "Rewinding chain to upgrade configuration");
                    _ ← act (DoSetHead rewindTo);
                    act (DoWriteChainConfig chainDb genesisHash)
                | _ => mret tt
                end;
            _ ← act DoBloomIndexerStart;
            let journal :=
              if negb (String.eqb (TxPool_Journal config) "")
              then ResolvePath X (TxPool_Journal config)
              else TxPool_Journal config in
            _ ← act (DoNewTxPool journal);
            _ ← act DoNewProtocolManager;
            match NewProtocolManager X chainConfig (SyncMode config)
                    (NetworkId config) engine chainDb with
            | Some err => fail err
            | None =>
                _ ← act DoNewMiner;
                _ ← act (DoSetExtra (makeExtraData (ExtraData config)));
                let gpoDefault :=
                  match GPO_Default config with
                  | None => GasPrice config
                  | Some d => Some d
                  end in
                _ ← act (DoNewOracle gpoDefault);
                mret zrm
            end
        end
    end.

End WithExternals.

(** *** Sample configurations *)

Definition demo_externals : externals :=
  {| FastSync := 1;
     LightSync := 2;
     IsValid := fun mode => (0 <=? mode) && (mode <=? 2);
     Shannon := 1000000000;
     DefaultTxPoolConfig_Journal := "transactions.rlp";
     OpenDatabase := fun _ _ _ => inl 0%nat;
     IsLDBDatabase := fun _ => true;
     ResolvePath := fun p => "/node/" +:+ p;
     SetupGenesisBlock := fun _ _ => ({| ChainId := 1; Clique := None |}, 0, GenesisOk);
     GetBlockChainVersion := fun _ => 0;
     BlockChainVersion := 3;
     NewBlockChain := fun _ _ _ _ => None;
     NewProtocolManager := fun _ _ _ _ _ => None;
     DefaultExtraData := [];
     MaximumExtraDataSize := 32 |}.

Definition with_mode (mode : downloader_SyncMode) (fake test shared : bool)
    (c : Config) : Config :=
  {| Genesis := Genesis c; NetworkId := NetworkId c; SyncMode := mode;
     LightServ := LightServ c; LightPeers := LightPeers c;
     SkipBcVersionCheck := SkipBcVersionCheck c;
     DatabaseHandles := DatabaseHandles c; DatabaseCache := DatabaseCache c;
     Etherbase := Etherbase c; MinerThreads := MinerThreads c;
     ExtraData := ExtraData c; GasPrice := GasPrice c;
     EthashCacheDir := EthashCacheDir c;
     EthashCachesInMem := EthashCachesInMem c;
     EthashCachesOnDisk := EthashCachesOnDisk c;
     EthashDatasetDir := EthashDatasetDir c;
     EthashDatasetsInMem := EthashDatasetsInMem c;
     EthashDatasetsOnDisk := EthashDatasetsOnDisk c;
     TxPool_Journal := TxPool_Journal c;
     GPO_Blocks := GPO_Blocks c; GPO_Percentile := GPO_Percentile c;
     GPO_Default := GPO_Default c;
     EnablePreimageRecording := EnablePreimageRecording c;
     DocRoot := DocRoot c;
     PowFake := fake; PowTest := test; PowShared := shared |}.

Definition light_config : Config :=
  with_mode 2 false false false (DefaultConfig demo_externals).

Definition tester_config : Config :=
  with_mode 1 false true true (DefaultConfig demo_externals).

Definition pow_chain : ChainConfig := {| ChainId := 1; Clique := None |}.

Definition poa_chain : ChainConfig :=
  {| ChainId := 4; Clique := Some {| Period := 15; Epoch := 30000 |} |}.

End Zrm.

(** * Further notions for [zrmash_io_prepare] *)

Module ZrmashIoNotions.

Import ZrmashIo.

(** A DAG file that can be used as it is for a payload of [file_size]
    bytes: it has the length of magic number and payload, and it starts
    with the magic number. *)
Definition valid_dag_file (P : platform) (file_size : Z) (content : list byte) : Prop :=
  file_length content = file_size + ZRMASH_DAG_MAGIC_NUM_SIZE /\
  leading_magic P content = ZRMASH_DAG_MAGIC_NUM P.

(** The stream that the next successful [fopen] returns. *)
Definition next_stream (w : world) : nat := fresh (dom (w_streams w)).

(** The order of the labels in the source. *)
Definition line (l : label) : Z :=
  match l with
  | L31 => 31 | L36 => 36 | L41 => 41 | L49 => 49 | L51 => 51 | L54 => 54
  | L59 => 59 | L66 => 66 | L73 => 73 | L78 => 78 | L84 => 84 | L90 => 90
  | L95 => 95 | L100 => 100 | L105 => 105 | L108 => 108 | L110 => 110
  | L112 => 112 | L114 => 114
  end.

(** The messages logged during the call, oldest first. *)
Definition logged (w : world) (o : outcome) : list string :=
  drop (length (w_log w)) (w_log (after o)).

(** A failure of a call that is not the read of the magic number. *)
Definition fatal_failure (c : io_call) : bool :=
  match c with
  | CallFread _ _ _ => false
  | _ => io_failure_listed c
  end.

(** A valid DAG file for a payload of 2 bytes. *)
Definition demo_valid_world : world := demo_stale_world.

Definition demo_match : outcome :=
  zrmash_io_prepare demo_platform no_faults demo_valid_world "dag" demo_seed 2 false.

(** A second file beside the DAG file. *)
Definition demo_two_files_world : world :=
  with_file "dag/other" [x2a] demo_stale_world.

Definition mkdir_fault : faults :=
  {| fault_mkdir := true; fault_fopen_rb := false; fault_file_size := false;
     fault_fread := false; fault_fopen_wb := false; fault_fseek := false;
     fault_fputc := false; fault_fflush := false |}.

Definition flush_fault : faults :=
  {| fault_mkdir := false; fault_fopen_rb := false; fault_file_size := false;
     fault_fread := false; fault_fopen_wb := false; fault_fseek := false;
     fault_fputc := false; fault_fflush := true |}.

End ZrmashIoNotions.

(** * Package [zrm]: the running service *)

Module ZrmService.

Import Zrm.

(** ** The running service: the other methods of [Zerium] *)

(** Go's [int] on a 64-bit platform: arithmetic wraps around. *)
Definition to_int (z : Z) : Z := (z + 2 ^ 63) mod 2 ^ 64 - 2 ^ 63.

(** A wallet, as the list of the addresses of its [Accounts()]. *)
Definition Wallet := list Address.

(** A [LesServer], as the list of its [Protocols()]; a protocol is known
    by its version. *)
Record LesServer := { les_Protocols : list Z }.

(** The state the methods below read and change: the object [New] built,
    the wallets of its account manager, the attached light server (nil when
    [None]), the protocol manager's [SubProtocols] and [acceptTxs], the
    base the miner was last given, and whether [stopDbUpgrade] is not nil. *)
Record Service := {
  zrm : Zerium;
  wallets : list Wallet;
  lesServer : option LesServer;
  SubProtocols : list Z;
  acceptTxs : Z;
  minerBase : Address;
  stopDbUpgrade : bool
}.

(** What a method does besides changing the state and returning. *)
Inductive effect :=
  | LogError (msg : string)
  | SetBloomBitsIndexer
  | CliqueAuthorize (eb : Address) (wallet : Wallet)
  | GoMinerStart (eb : Address)
  | MinerSetZeriumbase (a : Address)
  | StartBloomHandlers
  | NewPublicNetAPI (version : Z)
  | ProtocolManagerStart (maxPeers : Z)
  | LesServerStart
  | CallStopDbUpgrade
  | BloomIndexerClose
  | BlockchainStop
  | ProtocolManagerStop
  | LesServerStop
  | TxPoolStop
  | MinerStop
  | EventMuxStop
  | ChainDbClose
  | CloseShutdownChan.

Definition set_zeriumbase (a : Address) (z : Zerium) : Zerium :=
  {| config := config z; chainDb := chainDb z; chainConfig := chainConfig z;
     engine := engine z; networkId := networkId z; gasPrice := gasPrice z;
     zeriumbase := a |}.

(** [AddLesServer] *)
Definition AddLesServer (s : Service) (ls : LesServer) : Service * list effect :=
  ({| zrm := zrm s; wallets := wallets s; lesServer := Some ls;
      SubProtocols := SubProtocols s; acceptTxs := acceptTxs s;
      minerBase := minerBase s; stopDbUpgrade := stopDbUpgrade s |},
   [SetBloomBitsIndexer]).

(** [Zeriumbase]: the address and the error; the zero address is
    [common.Address{}]. *)
Definition Zeriumbase (s : Service) : Address * option error :=
  let base := zeriumbase (zrm s) in
  if negb (base =? 0) then (base, None)
  else
    match wallets s with
    | accounts :: _ =>
        match accounts with
        | account :: _ => (account, None)
        | [] => (0, Some "zeriumbase address must be explicitly specified")
        end
    | [] => (0, Some "zeriumbase address must be explicitly specified")
    end.

(** [SetZeriumbase] *)
Definition SetZeriumbase (s : Service) (a : Address) : Service * list effect :=
  ({| zrm := set_zeriumbase a (zrm s); wallets := wallets s;
      lesServer := lesServer s; SubProtocols := SubProtocols s;
      acceptTxs := acceptTxs s; minerBase := a;
      stopDbUpgrade := stopDbUpgrade s |},
   [MinerSetZeriumbase a]).

(** Whether the engine is a [clique.Clique], as the type assertion on
    [s.engine] finds out. *)
Definition is_clique (e : Engine) : bool :=
  match e with
  | clique_New _ _ => true
  | _ => false
  end.

(** [%v] of an error that may be nil. *)
Definition fmt_v (err : option error) : string :=
  match err with
  | Some e => e
  | None => "<nil>"
  end.

Definition set_acceptTxs (v : Z) (s : Service) : Service :=
  {| zrm := zrm s; wallets := wallets s; lesServer := lesServer s;
     SubProtocols := SubProtocols s; acceptTxs := v;
     minerBase := minerBase s; stopDbUpgrade := stopDbUpgrade s |}.

Section WithAccounts.

(** [accounts.Manager.Find], whose text is not among the sources: the
    wallet that holds the account, which may be nil, and an error. *)
Variable Find : list Wallet -> Address -> option Wallet * option error.

(** [StartMining]: the error returned (nil when [None]), the state after,
    and what was done. *)
Definition StartMining (s : Service) (local : bool)
  : option error * Service * list effect :=
  match Zeriumbase s with
  | (_, Some err) =>
      (Some ("zeriumbase missing: " +:+ err), s,
       [LogError "Cannot start mining without zeriumbase"])
  | (eb, None) =>
      let start (authorized : list effect) :=
        let s' := if local then set_acceptTxs 1 s else s in
        (None, s', authorized ++ [GoMinerStart eb]) in
      if is_clique (engine (zrm s)) then
        match Find (wallets s) eb with
        | (Some wallet, None) => start [CliqueAuthorize eb wallet]
        | (_, err) =>
            (Some ("signer missing: " +:+ fmt_v err), s,
             [LogError "Zeriumbase account unavailable locally"])
        end
      else start []
  end.

End WithAccounts.

(** [NetVersion] *)
Definition NetVersion (s : Service) : Z := networkId (zrm s).

(** [Protocols] *)
Definition Protocols (s : Service) : list Z :=
  match lesServer s with
  | None => SubProtocols s
  | Some ls => SubProtocols s ++ les_Protocols ls
  end.

(** [Start], for a server with the given [MaxPeers]. *)
Definition Start (s : Service) (MaxPeers : Z) : option error * list effect :=
  let maxPeers := MaxPeers in
  let maxPeers :=
    if 0 <? LightServ (config (zrm s)) then
      let maxPeers := to_int (maxPeers - LightPeers (config (zrm s))) in
      if maxPeers <? MaxPeers ÷ 2 then MaxPeers ÷ 2 else maxPeers
    else maxPeers in
  (None,
   [StartBloomHandlers; NewPublicNetAPI (NetVersion s); ProtocolManagerStart maxPeers]
   ++ match lesServer s with
      | Some _ => [LesServerStart]
      | None => []
      end).

(** [Stop] *)
Definition Stop (s : Service) : option error * list effect :=
  (None,
   (if stopDbUpgrade s then [CallStopDbUpgrade] else [])
   ++ [BloomIndexerClose; BlockchainStop; ProtocolManagerStop]
   ++ match lesServer s with
      | Some _ => [LesServerStop]
      | None => []
      end
   ++ [TxPoolStop; MinerStop; EventMuxStop; ChainDbClose; CloseShutdownChan]).

(** *** Sample services *)


Definition demo_service (base : Address) (e : Engine) (ws : list Wallet) : Service :=
  {| zrm := {| config := DefaultConfig demo_externals; chainDb := 0%nat;
               chainConfig := pow_chain; engine := e; networkId := 1;
               gasPrice := None; zeriumbase := base |};
     wallets := ws; lesServer := None; SubProtocols := [63; 62];
     acceptTxs := 0; minerBase := 0; stopDbUpgrade := false |}.

(** A manager whose [Find] looks through the wallets in order. *)
Fixpoint find_in (ws : list Wallet) (a : Address) : option Wallet * option error :=
  match ws with
  | [] => (None, Some "unknown account")
  | w :: rest => if existsb (Z.eqb a) w then (Some w, None) else find_in rest a
  end.

(** Externals like [demo_externals], but with the given block chain
    version in the database and the given third result of
    [core.SetupGenesisBlock]. *)
Definition sample_externals (stored : Z) (g : genesis_error) : externals :=
  {| FastSync := 1;
     LightSync := 2;
     IsValid := fun mode => (0 <=? mode) && (mode <=? 2);
     Shannon := 1000000000;
     DefaultTxPoolConfig_Journal := "transactions.rlp";
     OpenDatabase := fun _ _ _ => inl 0%nat;
     IsLDBDatabase := fun _ => true;
     ResolvePath := fun p => "/node/" +:+ p;
     SetupGenesisBlock := fun _ _ => (pow_chain, 0, g);
     GetBlockChainVersion := fun _ => stored;
     BlockChainVersion := 3;
     NewBlockChain := fun _ _ _ _ => None;
     NewProtocolManager := fun _ _ _ _ _ => None;
     DefaultExtraData := [];
     MaximumExtraDataSize := 32 |}.


End ZrmService.

(** * [zrmash_io_prepare]: what the function does *)

Module ZrmashIoProofs.

Import ZrmashIo.

(** ** Running the machine symbolically *)

Lemma run_S P io a n c : run P io a (S n) c = run P io a n (step P io a c).
Proof. reflexivity. Qed.

Lemma run_halted P io a n c : pc c = L114 -> run P io a n c = c.
Proof.
  revert c. induction n as [|n IH]; intros c H; [reflexivity|].
  rewrite run_S. assert (Hs : step P io a c = c) by (unfold step; now rewrite H).
  rewrite Hs. now apply IH.
Qed.

Ltac machine_unfold :=
  unfold zrmash_mkdir, zrmash_fopen, open_stream, zrmash_file_size, fread,
         fseek, fputc, fflush, fclose, free, get_stream, put_stream,
         set_ret, set_tmpfile, set_f, set_found_size, set_magic_num,
         called, ZRMASH_CRITICAL, set_dirs, set_files, set_streams, set_live.

Ltac machine_cbn :=
  cbn [step exec pc vars env output_file visited
       ret tmpfile f found_size magic_num
       dirname seedhash file_size force_create
       w_dirs w_files w_streams w_live w_log w_calls
       s_path s_pos s_pending
       returned stored after path_taken
       String.eqb Ascii.eqb Bool.eqb negb app fst snd] in *.

Lemma stream_lookup_insert (m : gmap nat stream) fd s :
  <[fd := s]> m !! fd = Some s.
Proof. apply lookup_insert_eq. Qed.

Lemma stream_insert_insert (m : gmap nat stream) fd s s' :
  <[fd := s']> (<[fd := s]> m) = <[fd := s']> m.
Proof. apply insert_insert_eq. Qed.

Lemma stream_delete_insert (m : gmap nat stream) fd s :
  delete fd (<[fd := s]> m) = delete fd m.
Proof. apply delete_insert_eq. Qed.

Lemma file_lookup_insert (m : gmap string (list byte)) p c :
  <[p := c]> m !! p = Some c.
Proof. apply lookup_insert_eq. Qed.

Lemma file_insert_insert (m : gmap string (list byte)) p c c' :
  <[p := c']> (<[p := c]> m) = <[p := c']> m.
Proof. apply insert_insert_eq. Qed.

Ltac map_simpl :=
  repeat match goal with
    | |- context [<[?k := _]> _ !! ?k] =>
        first [ rewrite stream_lookup_insert | rewrite file_lookup_insert ]
    | |- context [<[?k := _]> (<[?k := _]> _)] =>
        first [ rewrite stream_insert_insert | rewrite file_insert_insert ]
    | |- context [delete ?k (<[?k := _]> _)] => rewrite stream_delete_insert
    | H : context [<[?k := _]> _ !! ?k] |- _ =>
        first [ rewrite stream_lookup_insert in H | rewrite file_lookup_insert in H ]
    end.

Ltac machine_simpl :=
  machine_cbn; repeat (progress (machine_unfold; machine_cbn; map_simpl)).

(** Take one step of the machine and split on the conditions it tests. *)
Ltac split_condition :=
  match goal with
  | |- context [match ?x with _ => _ end] =>
      lazymatch x with
      | context [match _ with _ => _ end] => fail
      | _ => first [ match goal with H : x = _ |- _ => rewrite H end
                   | destruct x eqn:? ]
      end
  end.

Ltac machine_step :=
  rewrite run_S; machine_simpl;
  repeat (split_condition; machine_simpl; try discriminate; simplify_eq).

Ltac machine_halt := rewrite run_halted by reflexivity; machine_simpl.

(** Run to the [return], one goal per path. What is to be shown of the
    outcome is set aside during the run, so that only the conditions the
    machine tests are split on. *)
Ltac machine_run :=
  match goal with
  | |- context [zrmash_io_prepare ?P ?io ?w ?d ?sh ?fs ?fc] =>
      pattern (zrmash_io_prepare P io w d sh fs fc);
      match goal with
      | |- ?Q _ =>
          let post := fresh "post" in
          set (post := Q);
          unfold zrmash_io_prepare, fuel, entry;
          repeat first [ machine_halt | machine_step ];
          subst post; cbv beta; machine_simpl
      end
  end.

(** The function always returns: the run ends at the [return] of line 114
    within the fuel, whatever the input. *)
Lemma prepare_returns P io w d sh fs fc :
  pc (run P io {| dirname := d; seedhash := sh; file_size := fs;
                  force_create := fc |} fuel (entry w)) = L114.
Proof.
  unfold fuel, entry.
  repeat first [ machine_halt | machine_step ]; reflexivity.
Qed.

(** *** Arithmetic of the size check and of the read *)

Lemma two_64 : 2 ^ 64 = 18446744073709551616.
Proof. reflexivity. Qed.

Lemma file_length_nonneg c : 0 <= file_length c.
Proof. unfold file_length. lia. Qed.

(** When the check of line 59 lets a file through, either the file has the
    expected size or it is shorter than a magic number and the subtraction
    wrapped around. *)
Lemma size_check_passes fs len :
  0 <= fs < 2 ^ 64 -> 0 <= len < 2 ^ 64 ->
  negb (fs =? wrap64 (len - ZRMASH_DAG_MAGIC_NUM_SIZE)) = false ->
  len = fs + ZRMASH_DAG_MAGIC_NUM_SIZE \/ len < ZRMASH_DAG_MAGIC_NUM_SIZE.
Proof.
  unfold wrap64, ZRMASH_DAG_MAGIC_NUM_SIZE. rewrite two_64.
  intros Hfs Hlen H. apply negb_false_iff, Z.eqb_eq in H.
  destruct (Z_lt_ge_dec len 8) as [Hs|Hs]; [now right|left].
  rewrite Z.mod_small in H by lia. lia.
Qed.

Lemma size_check_fires fs len :
  0 <= fs < 2 ^ 64 -> 0 <= len < 2 ^ 64 ->
  negb (fs =? wrap64 (len - ZRMASH_DAG_MAGIC_NUM_SIZE)) = true ->
  len <> fs + ZRMASH_DAG_MAGIC_NUM_SIZE.
Proof.
  unfold wrap64, ZRMASH_DAG_MAGIC_NUM_SIZE. rewrite two_64.
  intros Hfs Hlen H. apply negb_true_iff, Z.eqb_neq in H.
  intros ->. apply H. replace (fs + 8 - 8) with fs by lia.
  now rewrite Z.mod_small by lia.
Qed.

(** From the start of a file shorter than a magic number no item can be
    read; from a longer one exactly one is. *)
Lemma items_of_short_file len :
  0 <= len < ZRMASH_DAG_MAGIC_NUM_SIZE ->
  Z.min 1 (Z.max 0 (len - 0) / ZRMASH_DAG_MAGIC_NUM_SIZE) = 0.
Proof.
  unfold ZRMASH_DAG_MAGIC_NUM_SIZE. intros H.
  rewrite Z.max_r by lia. rewrite Z.div_small by lia. reflexivity.
Qed.

Lemma items_of_long_file len :
  ZRMASH_DAG_MAGIC_NUM_SIZE <= len ->
  Z.min 1 (Z.max 0 (len - 0) / ZRMASH_DAG_MAGIC_NUM_SIZE) = 1.
Proof.
  unfold ZRMASH_DAG_MAGIC_NUM_SIZE. intros H.
  rewrite Z.max_r by lia. rewrite Z.sub_0_r.
  assert (1 <= len / 8) by (apply Z.div_le_lower_bound; lia). lia.
Qed.

Lemma items_read_at_start content :
  ZRMASH_DAG_MAGIC_NUM_SIZE <= file_length content ->
  take (Z.to_nat (Z.min 1 (Z.max 0 (file_length content - 0) / ZRMASH_DAG_MAGIC_NUM_SIZE)
                  * ZRMASH_DAG_MAGIC_NUM_SIZE))
       (drop (Z.to_nat 0) content)
  = take (Z.to_nat ZRMASH_DAG_MAGIC_NUM_SIZE) content.
Proof.
  intros H. rewrite items_of_long_file by exact H. reflexivity.
Qed.

(** A stream opened and closed again leaves the table of streams as it was. *)
Lemma delete_fresh_stream (m : gmap nat stream) : delete (fresh (dom m)) m = m.
Proof. apply delete_id, not_elem_of_dom, is_fresh. Qed.

(** *** The seek to the last byte and the write of the sentinel *)

(** An offset that [fseek] accepts is the last byte of a file of
    [file_size + ZRMASH_DAG_MAGIC_NUM_SIZE] bytes, the sum being taken in
    [uint64_t]. *)
Lemma last_byte_offset_ok fs :
  0 <= fs < 2 ^ 64 ->
  (last_byte_offset fs <? 0) = false ->
  last_byte_offset fs = wrap64 (fs + ZRMASH_DAG_MAGIC_NUM_SIZE) - 1 /\
  1 <= wrap64 (fs + ZRMASH_DAG_MAGIC_NUM_SIZE).
Proof.
  unfold last_byte_offset, to_long, wrap64, ZRMASH_DAG_MAGIC_NUM_SIZE.
  rewrite two_64. change (2 ^ 63) with 9223372036854775808.
  intros Hfs H. apply Z.ltb_ge in H.
  pose proof (Z.mod_pos_bound (fs + 8) 18446744073709551616 ltac:(lia)) as Hm.
  destruct (Z.eq_dec ((fs + 8) mod 18446744073709551616) 0) as [E|E].
  - rewrite E in H |- *. exfalso. revert H. now vm_compute.
  - rewrite Z.mod_small in H |- * by lia.
    destruct (_ <? _); lia.
Qed.

Lemma commit_sentinel (m : gmap string (list byte)) p pos off b :
  0 <= off ->
  commit {| s_path := p; s_pos := pos; s_pending := [(off, b)] |} (<[p := []]> m)
  = <[p := replicate (Z.to_nat off) x00 ++ [b]]> m.
Proof.
  intros H. unfold commit. cbn [s_pending s_path].
  rewrite file_lookup_insert, file_insert_insert. cbn [default from_option id foldl].
  unfold write_at, file_length. cbn [length].
  assert (E : (off <? Z.of_nat 0) = false) by (apply Z.ltb_ge; lia).
  rewrite E. now rewrite Z.sub_0_r.
Qed.

Lemma sentinel_length off b :
  0 <= off -> file_length (replicate (Z.to_nat off) x00 ++ [b]) = off + 1.
Proof.
  intros H. unfold file_length. rewrite length_app, length_replicate.
  cbn [length]. lia.
Qed.

(** Bring the calls made on a path to an explicit list. *)
Ltac calls_simpl :=
  unfold calls_made; cbn [after w_calls];
  rewrite <- ?app_assoc; cbn [app]; rewrite ?drop_app_length;
  cbn [forallb tolerated opens_existing fst snd orb andb String.eqb Ascii.eqb Bool.eqb].

(** ** The size check (lines 49 to 63) *)

(** C1. Without [force_create], when the DAG file exists and its length is
    not [file_size + ZRMASH_DAG_MAGIC_NUM_SIZE], the call never returns
    [ZRMASH_IO_MEMO_MATCH], whatever the file holds and whatever fails; and
    when the directory step, the opening of the file and the query of its
    size succeed, it returns [ZRMASH_IO_MEMO_SIZE_MISMATCH]. *)
Theorem prepare_size_mismatch P io w d sh fs path content :
  0 <= fs < 2 ^ 64 ->
  dag_path P d sh = Some path ->
  w_files w !! path = Some content ->
  file_length content < 2 ^ 64 ->
  file_length content <> fs + ZRMASH_DAG_MAGIC_NUM_SIZE ->
  returned (zrmash_io_prepare P io w d sh fs false) <> ZRMASH_IO_MEMO_MATCH /\
  (fault_mkdir io = false -> fault_fopen_rb io = false ->
   fault_file_size io = false ->
   returned (zrmash_io_prepare P io w d sh fs false) = ZRMASH_IO_MEMO_SIZE_MISMATCH).
Proof.
  intros Hfs Hpath Hfile Hlen Hne. unfold dag_path in Hpath.
  pose proof (file_length_nonneg content) as Hpos.
  machine_run.
  all: split; [ try discriminate | intros; try reflexivity; try congruence ].
  all: exfalso.
  all: match goal with
       | H : negb (_ =? wrap64 _) = false |- _ =>
           apply size_check_passes in H; [destruct H as [H|H]|lia|lia]; [lia|]
       end.
  all: match goal with
       | H : negb (Z.min _ _ =? 1) = false, Hf : w_files _ !! _ = Some _ |- _ =>
           rewrite Hf in H; cbn [default from_option id] in H;
           rewrite items_of_short_file in H by lia; discriminate H
       end.
Qed.

Lemma prepare_size_mismatch_witness :
  returned (zrmash_io_prepare demo_platform no_faults demo_stale_world
              "dag" demo_seed 3 false)
  = ZRMASH_IO_MEMO_SIZE_MISMATCH.
Proof.
  apply (prepare_size_mismatch demo_platform no_faults demo_stale_world "dag"
           demo_seed 3 "dag/full-R23" (magic_bytes ++ [x01; x02])).
  - lia.
  - reflexivity.
  - vm_compute. reflexivity.
  - vm_compute. reflexivity.
  - vm_compute. discriminate.
  - reflexivity.
  - reflexivity.
  - reflexivity.
Defined.

(** ** The magic number check (lines 64 to 80) *)

(** C2. Without [force_create], when the DAG file exists with the expected
    length and its leading magic number is not [ZRMASH_DAG_MAGIC_NUM], the
    call never returns [ZRMASH_IO_MEMO_MATCH]; when the directory step, the
    opening and the size query succeed it reports the mismatch as
    [ZRMASH_IO_MEMO_SIZE_MISMATCH], hands no stream to the caller, closes the
    one it opened and leaves the files as they were. *)
Theorem prepare_magic_mismatch P io w d sh fs path content :
  0 <= fs < 2 ^ 64 ->
  dag_path P d sh = Some path ->
  w_files w !! path = Some content ->
  file_length content = fs + ZRMASH_DAG_MAGIC_NUM_SIZE ->
  leading_magic P content <> ZRMASH_DAG_MAGIC_NUM P ->
  returned (zrmash_io_prepare P io w d sh fs false) <> ZRMASH_IO_MEMO_MATCH /\
  (fault_mkdir io = false -> fault_fopen_rb io = false ->
   fault_file_size io = false ->
   returned (zrmash_io_prepare P io w d sh fs false) = ZRMASH_IO_MEMO_SIZE_MISMATCH /\
   stored (zrmash_io_prepare P io w d sh fs false) = None /\
   w_streams (after (zrmash_io_prepare P io w d sh fs false)) = w_streams w /\
   w_files (after (zrmash_io_prepare P io w d sh fs false)) = w_files w).
Proof.
  intros Hfs Hpath Hfile Hlen Hmagic. unfold dag_path in Hpath.
  unfold leading_magic in Hmagic.
  machine_run.
  all: split; [ try discriminate | intros; try congruence ].
  all: rewrite ?delete_fresh_stream; try (repeat split; reflexivity).
  all: exfalso.
  all: match goal with
       | H : negb (decode_u64 _ _ =? _) = false, Hf : w_files _ !! _ = Some _ |- _ =>
           rewrite Hf in H; cbn [default from_option id] in H;
           rewrite items_read_at_start in H
             by (rewrite Hlen; unfold ZRMASH_DAG_MAGIC_NUM_SIZE; lia);
           apply negb_false_iff, Z.eqb_eq in H; exact (Hmagic H)
       end.
Qed.

Lemma prepare_magic_mismatch_witness :
  returned (zrmash_io_prepare demo_platform no_faults demo_foreign_world
              "dag" demo_seed 2 false)
  = ZRMASH_IO_MEMO_SIZE_MISMATCH.
Proof.
  apply (prepare_magic_mismatch demo_platform no_faults demo_foreign_world "dag"
           demo_seed 2 "dag/full-R23" (replicate 8 x00 ++ [x01; x02])).
  - lia.
  - reflexivity.
  - vm_compute. reflexivity.
  - vm_compute. reflexivity.
  - vm_compute. discriminate.
  - reflexivity.
  - reflexivity.
  - reflexivity.
Defined.

(** ** The creation path (lines 83 to 110) *)

(** The forced creation of a file for 4 bytes of payload succeeds and
    leaves the stream at offset 12, the end of the file, not at its start. *)
Lemma creation_not_rewound :
  creation_succeeded empty_world demo_creation /\
  handle_position demo_creation = Some 12 /\
  ~ positioned_at_start demo_creation.
Proof.
  split; [split|split].
  - apply list_elem_of_In. vm_compute. tauto.
  - vm_compute. reflexivity.
  - vm_compute. reflexivity.
  - unfold positioned_at_start. vm_compute. discriminate.
Qed.

(** C3, as the code has it. On every successful run of the creation path
    the DAG file is left with exactly [file_size + ZRMASH_DAG_MAGIC_NUM_SIZE]
    bytes (the sum being the [uint64_t] one): the call opens it afresh,
    seeks to the last byte, writes the one-byte sentinel and flushes, in
    this order; the file is zero up to the sentinel and nothing is left in
    the buffer. The stream handed to the caller stands just past the
    sentinel, at the end of the file; it is not moved back to the start. *)
Theorem prepare_creation_preallocates P io w d sh fs fc :
  0 <= fs < 2 ^ 64 ->
  creation_succeeded w (zrmash_io_prepare P io w d sh fs fc) ->
  exists path fd pre,
    let total := wrap64 (fs + ZRMASH_DAG_MAGIC_NUM_SIZE) in
    let o := zrmash_io_prepare P io w d sh fs fc in
    dag_path P d sh = Some path /\
    calls_made w o =
      pre ++ [(CallFopen path "wb+", true);
              (CallFseek (Stream fd) (total - 1), true);
              (CallFputc x0a (Stream fd), true);
              (CallFflush (Stream fd), true);
              (CallFree, true)] /\
    w_files (after o) !! path = Some (replicate (Z.to_nat (total - 1)) x00 ++ [x0a]) /\
    file_length (replicate (Z.to_nat (total - 1)) x00 ++ [x0a]) = total /\
    (fs + ZRMASH_DAG_MAGIC_NUM_SIZE < 2 ^ 64 -> total = fs + ZRMASH_DAG_MAGIC_NUM_SIZE) /\
    stored o = Some (Stream fd) /\
    w_streams (after o) !! fd =
      Some {| s_path := path; s_pos := total; s_pending := [] |} /\
    handle_position o = Some total /\
    handle_position o <> Some 0.
Proof.
  intros Hfs. unfold creation_succeeded, handle_position, dag_path.
  cbv zeta.
  machine_run.
  all: calls_simpl.
  all: intros [Hin Hall]; try discriminate Hall.
  all: try (exfalso; clear -Hin; apply list_elem_of_In in Hin; cbn in Hin;
            intuition discriminate).
  all: match goal with
       | H : (last_byte_offset _ <? 0) = false |- _ =>
           destruct (last_byte_offset_ok fs Hfs H) as [Hoff Htotal]
       end.
  all: rewrite Hoff.
  all: match goal with
       | |- context [(CallMkdir ?d, true) :: (CallFopen ?s "rb+", false) :: _] =>
           exists s, (fresh (dom (w_streams w))),
                  [(CallMkdir d, true); (CallFopen s "rb+", false)]
       | |- context [(CallMkdir ?d, true) :: (CallFopen ?s "wb+", true) :: _] =>
           exists s, (fresh (dom (w_streams w))), [(CallMkdir d, true)]
       end.
  all: rewrite commit_sentinel by lia.
  all: rewrite file_lookup_insert, stream_lookup_insert, sentinel_length by lia.
  all: cbn [fmap option_fmap option_map app].
  all: replace (wrap64 (fs + ZRMASH_DAG_MAGIC_NUM_SIZE) - 1 + 1)
         with (wrap64 (fs + ZRMASH_DAG_MAGIC_NUM_SIZE)) by lia.
  all: repeat split; try reflexivity.
  all: try (intros Hsmall; unfold wrap64; apply Z.mod_small;
            unfold ZRMASH_DAG_MAGIC_NUM_SIZE in *; lia).
  all: intros E; injection E as E; lia.
Qed.

Lemma prepare_creation_preallocates_witness :
  handle_position demo_creation = Some 12.
Proof.
  destruct (prepare_creation_preallocates demo_platform no_faults empty_world "dag"
              demo_seed 4 true) as (path & fd & pre & H).
  - lia.
  - split; [apply list_elem_of_In; vm_compute; tauto | vm_compute; reflexivity].
  - exact (proj1 (proj2 (proj2 (proj2 (proj2 (proj2 (proj2 (proj2 H)))))))).
Defined.

(** C5. The assignment of [ZRMASH_IO_MEMO_MATCH] at line 108, after the
    [goto] of line 106, is executed on no run. A run that enters the
    creation path never returns [ZRMASH_IO_MEMO_MATCH], and a successful
    one returns [ZRMASH_IO_MEMO_MISMATCH]. *)
Theorem prepare_creation_result P io w d sh fs fc :
  (L108 ∉ path_taken (zrmash_io_prepare P io w d sh fs fc)) /\
  ((L84 ∈ path_taken (zrmash_io_prepare P io w d sh fs fc)) ->
   returned (zrmash_io_prepare P io w d sh fs fc) <> ZRMASH_IO_MEMO_MATCH) /\
  (creation_succeeded w (zrmash_io_prepare P io w d sh fs fc) ->
   returned (zrmash_io_prepare P io w d sh fs fc) = ZRMASH_IO_MEMO_MISMATCH).
Proof.
  unfold creation_succeeded.
  machine_run.
  all: calls_simpl.
  all: split; [ intros Hin; apply list_elem_of_In in Hin; cbn in Hin;
                intuition discriminate | split ].
  all: try discriminate.
  all: try (intros [Hin Hall]; first [ reflexivity | discriminate Hall |
        exfalso; clear -Hin; apply list_elem_of_In in Hin; cbn in Hin;
        intuition discriminate ]).
  all: intros Hin; exfalso; clear -Hin; apply list_elem_of_In in Hin; cbn in Hin;
        intuition discriminate.
Qed.

(** The creation path succeeds whenever it is forced, the directory and the
    path are there, and none of its four calls fails. *)
Lemma creation_succeeds_when_calls_do P io w d sh fs :
  fault_mkdir io = false ->
  is_Some (dag_path P d sh) ->
  fault_fopen_wb io = false ->
  fault_fseek io = false ->
  0 <= last_byte_offset fs ->
  fault_fputc io = false ->
  fault_fflush io = false ->
  creation_succeeded w (zrmash_io_prepare P io w d sh fs true).
Proof.
  intros Hmk [p Hp] Hwb Hseek Hoff Hputc Hflush.
  unfold dag_path in Hp. apply Z.ltb_ge in Hoff.
  unfold creation_succeeded.
  machine_run.
  all: calls_simpl.
  all: try congruence.
  all: split; [ apply list_elem_of_In; cbn; tauto | reflexivity ].
Qed.

Lemma prepare_creation_result_witness :
  returned demo_creation = ZRMASH_IO_MEMO_MISMATCH.
Proof.
  apply (proj2 (proj2 (prepare_creation_result demo_platform no_faults empty_world
                         "dag" demo_seed 4 true))).
  split; [apply list_elem_of_In; vm_compute; tauto | vm_compute; reflexivity].
Defined.

(** ** Forced creation (line 49) *)

(** C6. With [force_create] set the call never returns
    [ZRMASH_IO_MEMO_MATCH]; once the test of line 49 is reached, the next
    statement executed is the creation of line 84; none of the statements
    of lines 51 to 79 is executed, and no call opens an existing file,
    queries its size or reads from it. Whatever files there are, the
    result, the stream handed over, the path taken, the calls made, the
    open streams and the log are the same. *)
Theorem prepare_force_create P io w d sh fs files' :
  returned (zrmash_io_prepare P io w d sh fs true) <> ZRMASH_IO_MEMO_MATCH /\
  (executed_after L49 (path_taken (zrmash_io_prepare P io w d sh fs true)) = Some L84 \/
   fault_mkdir io = true \/ dag_path P d sh = None) /\
  Forall (fun l => checks_existing l = false)
    (path_taken (zrmash_io_prepare P io w d sh fs true)) /\
  Forall (fun e => reads_existing e.1 = false)
    (calls_made w (zrmash_io_prepare P io w d sh fs true)) /\
  returned (zrmash_io_prepare P io (set_files files' w) d sh fs true)
    = returned (zrmash_io_prepare P io w d sh fs true) /\
  stored (zrmash_io_prepare P io (set_files files' w) d sh fs true)
    = stored (zrmash_io_prepare P io w d sh fs true) /\
  path_taken (zrmash_io_prepare P io (set_files files' w) d sh fs true)
    = path_taken (zrmash_io_prepare P io w d sh fs true) /\
  calls_made (set_files files' w)
      (zrmash_io_prepare P io (set_files files' w) d sh fs true)
    = calls_made w (zrmash_io_prepare P io w d sh fs true) /\
  w_streams (after (zrmash_io_prepare P io (set_files files' w) d sh fs true))
    = w_streams (after (zrmash_io_prepare P io w d sh fs true)) /\
  w_log (after (zrmash_io_prepare P io (set_files files' w) d sh fs true))
    = w_log (after (zrmash_io_prepare P io w d sh fs true)).
Proof.
  unfold dag_path.
  machine_run.
  all: machine_run.
  all: calls_simpl.
  all: split; [ discriminate | ].
  all: split; [ first [ left; reflexivity | right; left; reflexivity
                      | right; right; reflexivity ] | ].
  all: split; [ repeat constructor | ].
  all: split; [ repeat constructor | ].
  all: repeat split; reflexivity.
Qed.

(** ** Failing calls *)




(** ** The out-parameter (lines 109 to 114) *)

(** C9. Something is stored through [output_file] exactly when the call
    returns [ZRMASH_IO_MEMO_MATCH] or [ZRMASH_IO_MEMO_MISMATCH]. When it
    returns [ZRMASH_IO_MEMO_SIZE_MISMATCH] or [ZRMASH_IO_FAIL] the caller's
    variable keeps its value and the open streams are those open before the
    call: what the function opened it has closed. What is stored is a
    stream that the call has opened, the only open stream it adds. *)
Theorem prepare_output_file P io w d sh fs fc before :
  (is_Some (stored (zrmash_io_prepare P io w d sh fs fc)) <->
   returned (zrmash_io_prepare P io w d sh fs fc) = ZRMASH_IO_MEMO_MATCH \/
   returned (zrmash_io_prepare P io w d sh fs fc) = ZRMASH_IO_MEMO_MISMATCH) /\
  (returned (zrmash_io_prepare P io w d sh fs fc) = ZRMASH_IO_MEMO_SIZE_MISMATCH \/
   returned (zrmash_io_prepare P io w d sh fs fc) = ZRMASH_IO_FAIL ->
   stored (zrmash_io_prepare P io w d sh fs fc) = None /\
   output_after before (zrmash_io_prepare P io w d sh fs fc) = before /\
   w_streams (after (zrmash_io_prepare P io w d sh fs fc)) = w_streams w) /\
  (forall p, stored (zrmash_io_prepare P io w d sh fs fc) = Some p ->
   exists fd s, p = Stream fd /\ w_streams w !! fd = None /\
     w_streams (after (zrmash_io_prepare P io w d sh fs fc))
       = <[fd := s]> (w_streams w)).
Proof.
  unfold output_after.
  machine_run.
  all: rewrite ?delete_fresh_stream.
  all: split; [ split; [ intros [x Hx]; try discriminate Hx; auto
                       | intros [H|H]; try discriminate H; eauto ]
              | split; [ intros [H|H]; try discriminate H; auto
                       | intros p Hp; try discriminate Hp ] ].
  all: injection Hp as <-; eexists _, _; split; [reflexivity|]; split;
       [ apply not_elem_of_dom, is_fresh | reflexivity ].
Qed.

Lemma prepare_output_file_witness :
  output_after (Stream 7) demo_unreadable = Stream 7 /\
  w_streams (after demo_unreadable) = w_streams demo_stale_world.
Proof.
  destruct (proj1 (proj2 (prepare_output_file demo_platform read_fault
              demo_stale_world "dag" demo_seed 2 false (Stream 7))))
    as (_ & Hout & Hstreams).
  - left. vm_compute. reflexivity.
  - split; [exact Hout | exact Hstreams].
Defined.

End ZrmashIoProofs.

(** * Package [zrm]: construction of the service *)

Module ZrmProofs.

Import Zrm.

(** ** [New] *)

(** C7. A configuration whose sync mode is light sync, or is not a valid
    sync mode, is rejected by [New]: the call returns no service but an
    error that says which of the two it is, and nothing has been done by
    then: no database is opened, no consensus engine and no block chain is
    created. *)
Theorem New_rejects_sync_mode (X : externals) (config : Config) :
  SyncMode config = LightSync X \/ IsValid X (SyncMode config) = false ->
  exists msg,
    call (New X config) = (inr msg, []) /\
    (msg = "can't run zrm.Zerium in light sync mode, use les.LightZerium" \/
     msg = "invalid sync mode " +:+ pretty (SyncMode config)).
Proof.
  intros H. unfold call, New.
  destruct (SyncMode config =? LightSync X) eqn:E.
  - eexists. split; [reflexivity | left; reflexivity].
  - destruct H as [H|H].
    + apply Z.eqb_neq in E. contradiction.
    + rewrite H. cbn [negb]. eexists. split; [reflexivity | right; reflexivity].
Qed.

Lemma New_rejects_sync_mode_witness :
  exists msg,
    call (New demo_externals light_config) = (inr msg, []) /\
    (msg = "can't run zrm.Zerium in light sync mode, use les.LightZerium" \/
     msg = "invalid sync mode " +:+ pretty (SyncMode light_config)).
Proof.
  apply (New_rejects_sync_mode demo_externals light_config).
  left. reflexivity.
Defined.

(** A configuration that passes the two checks gets its database opened:
    the checks are what stands between the caller and the construction. *)
Lemma New_opens_database_otherwise (X : externals) (config : Config) e :
  SyncMode config <> LightSync X ->
  IsValid X (SyncMode config) = true ->
  OpenDatabase X "chaindata" (DatabaseCache config) (DatabaseHandles config) = inr e ->
  call (New X config) = (inr e, [DoOpenDatabase "chaindata"]).
Proof.
  intros Hl Hv Hdb. unfold call, New.
  apply Z.eqb_neq in Hl. rewrite Hl, Hv. cbn [negb].
  unfold mbind, M_bind, CreateDB, act. cbn [app].
  unfold mbind, M_bind. rewrite Hdb. reflexivity.
Qed.

(** ** [CreateConsensusEngine] *)

(** C8. Without proof-of-authority in the chain configuration the engine
    follows the mode flags in this order: fake, test, shared; with none of
    them set it is a real engine made from the resolved cache directory,
    the dataset directory and the four retention counts, with its threads
    set to -1, which disables CPU mining. *)
Theorem CreateConsensusEngine_pow (X : externals) (config : Config)
    (chainConfig : ChainConfig) (db : Database) :
  Clique chainConfig = None ->
  (PowFake config = true ->
   (CreateConsensusEngine X config chainConfig db).1 = zrmash_NewFaker) /\
  (PowFake config = false -> PowTest config = true ->
   (CreateConsensusEngine X config chainConfig db).1 = zrmash_NewTester) /\
  (PowFake config = false -> PowTest config = false -> PowShared config = true ->
   (CreateConsensusEngine X config chainConfig db).1 = zrmash_NewShared) /\
  (PowFake config = false -> PowTest config = false -> PowShared config = false ->
   (CreateConsensusEngine X config chainConfig db).1 =
     SetThreads (-1)
       (zrmash_New (ResolvePath X (EthashCacheDir config))
          (EthashCachesInMem config) (EthashCachesOnDisk config)
          (EthashDatasetDir config)
          (EthashDatasetsInMem config) (EthashDatasetsOnDisk config))).
Proof.
  intros Hc. unfold CreateConsensusEngine. rewrite Hc.
  repeat split.
  - intros ->. reflexivity.
  - intros -> ->. reflexivity.
  - intros -> -> ->. reflexivity.
  - intros -> -> ->. reflexivity.
Qed.

Lemma CreateConsensusEngine_pow_witness :
  (CreateConsensusEngine demo_externals tester_config pow_chain 0%nat).1
  = zrmash_NewTester.
Proof.
  apply (CreateConsensusEngine_pow demo_externals tester_config pow_chain 0%nat);
    reflexivity.
Defined.

(** C10. With proof-of-authority in the chain configuration the engine is
    the clique engine made from that configuration and the database,
    whatever the fake, test and shared flags are, and nothing is logged. *)
Theorem CreateConsensusEngine_clique (X : externals) (config : Config)
    (chainConfig : ChainConfig) (db : Database) (clique : CliqueConfig) :
  Clique chainConfig = Some clique ->
  CreateConsensusEngine X config chainConfig db = (clique_New clique db, []).
Proof.
  intros Hc. unfold CreateConsensusEngine. rewrite Hc. reflexivity.
Qed.

Lemma CreateConsensusEngine_clique_witness :
  CreateConsensusEngine demo_externals tester_config poa_chain 0%nat
  = (clique_New {| Period := 15; Epoch := 30000 |} 0%nat, []).
Proof.
  apply (CreateConsensusEngine_clique demo_externals tester_config poa_chain 0%nat).
  reflexivity.
Defined.

End ZrmProofs.

(** * [zrmash_io_prepare]: further properties *)

Module ZrmashIoMore.

Import ZrmashIo ZrmashIoNotions ZrmashIoProofs.

(** ** Helper lemmas *)

(** A file of exactly the expected length passes the check of line 59. *)
Lemma size_check_exact fs :
  0 <= fs < 2 ^ 64 ->
  negb (fs =? wrap64 (fs + ZRMASH_DAG_MAGIC_NUM_SIZE - ZRMASH_DAG_MAGIC_NUM_SIZE)) = false.
Proof.
  intros H. unfold wrap64. replace (fs + _ - _) with fs by lia.
  rewrite Z.mod_small by exact H. now rewrite Z.eqb_refl.
Qed.

(** One item is read only from a file that holds a whole magic number. *)
Lemma one_item_read len :
  0 <= len ->
  negb (Z.min 1 (Z.max 0 (len - 0) / ZRMASH_DAG_MAGIC_NUM_SIZE) =? 1) = false ->
  ZRMASH_DAG_MAGIC_NUM_SIZE <= len.
Proof.
  intros Hpos H. destruct (Z_lt_ge_dec len ZRMASH_DAG_MAGIC_NUM_SIZE) as [Hs|Hs]; [|lia].
  rewrite items_of_short_file in H by lia. discriminate H.
Qed.

(** Committing a stream changes no file but its own. *)
Lemma commit_lookup_ne (s : stream) (m : gmap string (list byte)) p :
  s_path s <> p -> commit s m !! p = m !! p.
Proof.
  intros H. unfold commit. destruct (s_pending s); [reflexivity|].
  now apply lookup_insert_ne.
Qed.

Lemma commit_nothing (m : gmap string (list byte)) p pos :
  commit {| s_path := p; s_pos := pos; s_pending := [] |} m = m.
Proof. reflexivity. Qed.

Lemma append_empty_r (s : string) : s +:+ "" = s.
Proof.
  induction s as [|a s IH]; [reflexivity|].
  change (String a (s +:+ "") = String a s). f_equal. exact IH.
Qed.

Lemma message_names_path (pre q : string) :
  exists pre' suf, [pre +:+ q] = [pre' +:+ q +:+ suf].
Proof. exists pre, "". now rewrite append_empty_r. Qed.

Ltac log_simpl :=
  unfold logged; cbn [after w_log]; rewrite ?drop_app_length, ?drop_all.

(** After a successful run of the creation path the DAG file holds zeros
    up to the sentinel. *)
Lemma creation_leaves_sentinel_file P io w d sh fs fc :
  0 <= fs < 2 ^ 64 ->
  creation_succeeded w (zrmash_io_prepare P io w d sh fs fc) ->
  exists path,
    dag_path P d sh = Some path /\
    w_files (after (zrmash_io_prepare P io w d sh fs fc)) !! path
      = Some (replicate (Z.to_nat (wrap64 (fs + ZRMASH_DAG_MAGIC_NUM_SIZE) - 1)) x00
              ++ [x0a]).
Proof.
  intros Hfs. unfold creation_succeeded, dag_path.
  machine_run.
  all: calls_simpl.
  all: intros [Hin Hall]; try discriminate Hall.
  all: try (exfalso; clear -Hin; apply list_elem_of_In in Hin; cbn in Hin;
            intuition discriminate).
  all: match goal with
       | H : (last_byte_offset _ <? 0) = false |- _ =>
           destruct (last_byte_offset_ok fs Hfs H) as [Hoff Htotal]
       end.
  all: rewrite Hoff.
  all: eexists; split; [ reflexivity | ].
  all: rewrite commit_sentinel by lia.
  all: apply file_lookup_insert.
Qed.

(** A file of the expected length whose head is not the magic number is
    reported as unusable. *)
Lemma foreign_file_reported P io w d sh fs path content :
  0 <= fs < 2 ^ 64 ->
  dag_path P d sh = Some path ->
  w_files w !! path = Some content ->
  file_length content = fs + ZRMASH_DAG_MAGIC_NUM_SIZE ->
  leading_magic P content <> ZRMASH_DAG_MAGIC_NUM P ->
  fault_mkdir io = false -> fault_fopen_rb io = false ->
  fault_file_size io = false ->
  returned (zrmash_io_prepare P io w d sh fs false) = ZRMASH_IO_MEMO_SIZE_MISMATCH.
Proof.
  intros Hfs Hpath Hfile Hlen Hmagic Hmk Hrb Hsz. unfold dag_path in Hpath.
  unfold leading_magic in Hmagic.
  machine_run.
  all: try reflexivity.
  all: exfalso.
  all: match goal with
       | H : negb (decode_u64 _ _ =? _) = false |- _ =>
           rewrite Hfile in H; cbn [default from_option id] in H;
           rewrite items_read_at_start in H
             by (rewrite Hlen; unfold ZRMASH_DAG_MAGIC_NUM_SIZE; lia);
           apply negb_false_iff, Z.eqb_eq in H; exact (Hmagic H)
       end.
Qed.

(** The head of a file of zeros reads as the number zero on every host. *)
Lemma leading_magic_of_zeros P n tail :
  (8 <= n)%nat -> leading_magic P (replicate n x00 ++ tail) = 0.
Proof.
  intros H. unfold leading_magic, ZRMASH_DAG_MAGIC_NUM_SIZE.
  change (Z.to_nat 8) with 8%nat.
  rewrite take_app_le by (rewrite length_replicate; lia).
  rewrite take_replicate. replace (8 `min` n)%nat with 8%nat by lia.
  now destruct (host_big_endian P).
Qed.


(** ** A usable file (lines 49 to 80) *)

(** X1. Without [force_create], when the DAG file is valid for the payload
    size and the directory step, the opening, the size query and the read
    succeed, the call returns [ZRMASH_IO_MEMO_MATCH] and hands over a fresh
    stream on the file that stands just past the magic number, at the
    first byte of the payload; no file is changed and nothing is logged. *)
Theorem prepare_match P io w d sh fs path content :
  0 <= fs < 2 ^ 64 ->
  dag_path P d sh = Some path ->
  w_files w !! path = Some content ->
  valid_dag_file P fs content ->
  fault_mkdir io = false -> fault_fopen_rb io = false ->
  fault_file_size io = false -> fault_fread io = false ->
  returned (zrmash_io_prepare P io w d sh fs false) = ZRMASH_IO_MEMO_MATCH /\
  stored (zrmash_io_prepare P io w d sh fs false) = Some (Stream (next_stream w)) /\
  w_streams (after (zrmash_io_prepare P io w d sh fs false))
    = <[next_stream w := {| s_path := path; s_pos := ZRMASH_DAG_MAGIC_NUM_SIZE;
                            s_pending := [] |}]> (w_streams w) /\
  w_files (after (zrmash_io_prepare P io w d sh fs false)) = w_files w /\
  w_log (after (zrmash_io_prepare P io w d sh fs false)) = w_log w.
Proof.
  intros Hfs Hpath Hfile [Hlen Hmagic] Hmk Hrb Hsz Hrd.
  unfold dag_path in Hpath. unfold leading_magic in Hmagic. unfold next_stream.
  pose proof (file_length_nonneg content) as Hpos.
  assert (Hge : ZRMASH_DAG_MAGIC_NUM_SIZE <= file_length content)
    by (rewrite Hlen; lia).
  machine_run.
  all: try (exfalso;
            match goal with
            | H : negb (_ =? wrap64 _) = true |- _ =>
                rewrite Hlen, size_check_exact in H by exact Hfs; discriminate H
            | H : negb (Z.min _ _ =? 1) = true |- _ =>
                rewrite Hfile in H; cbn [default from_option id] in H;
                rewrite items_of_long_file in H by exact Hge; discriminate H
            | H : negb (decode_u64 _ _ =? _) = true |- _ =>
                rewrite Hfile in H; cbn [default from_option id] in H;
                rewrite items_read_at_start in H by exact Hge;
                apply negb_true_iff, Z.eqb_neq in H; contradiction
            end).
  rewrite Hfile. cbn [default from_option id].
  replace (0 + Z.min (Z.max 0 (file_length content - 0)) (ZRMASH_DAG_MAGIC_NUM_SIZE * 1))
    with ZRMASH_DAG_MAGIC_NUM_SIZE by (unfold ZRMASH_DAG_MAGIC_NUM_SIZE in *; lia).
  repeat split; reflexivity.
Qed.

Lemma prepare_match_witness :
  returned demo_match = ZRMASH_IO_MEMO_MATCH /\
  stored demo_match = Some (Stream (next_stream demo_valid_world)).
Proof.
  destruct (prepare_match demo_platform no_faults demo_valid_world "dag" demo_seed 2
              "dag/full-R23" (magic_bytes ++ [x01; x02])) as (Hr & Hs & _).
  - lia.
  - reflexivity.
  - vm_compute. reflexivity.
  - split; vm_compute; reflexivity.
  - reflexivity.
  - reflexivity.
  - reflexivity.
  - reflexivity.
  - split; [exact Hr | exact Hs].
Defined.

(** X2. [ZRMASH_IO_MEMO_MATCH] is returned only without [force_create]
    and only for a file that exists, holds at least a magic number, passes
    the size check of line 59 and starts with the magic number; a file
    shorter than [2^64] bytes is then valid for the payload size. *)
Theorem prepare_match_only_valid P io w d sh fs fc :
  0 <= fs < 2 ^ 64 ->
  returned (zrmash_io_prepare P io w d sh fs fc) = ZRMASH_IO_MEMO_MATCH ->
  fc = false /\
  exists path content,
    dag_path P d sh = Some path /\
    w_files w !! path = Some content /\
    ZRMASH_DAG_MAGIC_NUM_SIZE <= file_length content /\
    fs = wrap64 (file_length content - ZRMASH_DAG_MAGIC_NUM_SIZE) /\
    leading_magic P content = ZRMASH_DAG_MAGIC_NUM P /\
    (file_length content < 2 ^ 64 -> valid_dag_file P fs content).
Proof.
  intros Hfs. unfold dag_path, valid_dag_file, leading_magic.
  machine_run.
  all: intros Hret; try discriminate Hret.
  match goal with
  | Hf : w_files w !! ?s = Some ?l,
    Hn : negb (Z.min _ _ =? 1) = false,
    Hm : negb (decode_u64 _ _ =? _) = false,
    Hs : negb (fs =? wrap64 _) = false |- _ =>
      rewrite Hf in Hn, Hm; cbn [default from_option id] in Hn, Hm;
      pose proof (one_item_read _ (file_length_nonneg l) Hn) as Hge;
      rewrite items_read_at_start in Hm by exact Hge;
      apply negb_false_iff, Z.eqb_eq in Hm;
      pose proof Hs as Hs';
      apply negb_false_iff, Z.eqb_eq in Hs';
      split; [ now destruct fc | ];
      exists s, l;
      split; [reflexivity|]; do 4 (split; [assumption|]);
      intros Hlt; split; [|assumption]; apply size_check_passes in Hs;
        [ destruct Hs as [Hs|Hs]; [ exact Hs | lia ]
        | exact Hfs | split; [ apply file_length_nonneg | exact Hlt ] ]
  end.
Qed.

Lemma prepare_match_only_valid_witness :
  exists path content,
    dag_path demo_platform "dag" demo_seed = Some path /\
    w_files demo_valid_world !! path = Some content /\
    ZRMASH_DAG_MAGIC_NUM_SIZE <= file_length content /\
    2 = wrap64 (file_length content - ZRMASH_DAG_MAGIC_NUM_SIZE) /\
    leading_magic demo_platform content = ZRMASH_DAG_MAGIC_NUM demo_platform /\
    (file_length content < 2 ^ 64 -> valid_dag_file demo_platform 2 content).
Proof.
  apply (prepare_match_only_valid demo_platform no_faults demo_valid_world "dag"
           demo_seed 2 false).
  - lia.
  - vm_compute. reflexivity.
Defined.

(** ** What a call leaves behind *)

(** X3. The path allocated at line 42 is freed on every path on which it
    was allocated: as many heap blocks live after the call as before. *)
Theorem prepare_frees_path P io w d sh fs fc :
  w_live (after (zrmash_io_prepare P io w d sh fs fc)) = w_live w.
Proof.
  machine_run.
  all: reflexivity.
Qed.

(** X4. No file other than the DAG file is ever changed, and no file at
    all unless the creation of line 84 is reached; the directory is added
    to the directories exactly when [zrmash_mkdir] succeeds. *)
Theorem prepare_touches_dag_file_only P io w d sh fs fc :
  (forall p, dag_path P d sh <> Some p ->
     w_files (after (zrmash_io_prepare P io w d sh fs fc)) !! p = w_files w !! p) /\
  ((L84 ∉ path_taken (zrmash_io_prepare P io w d sh fs fc)) ->
     w_files (after (zrmash_io_prepare P io w d sh fs fc)) = w_files w) /\
  (fault_mkdir io = true ->
     w_dirs (after (zrmash_io_prepare P io w d sh fs fc)) = w_dirs w) /\
  (fault_mkdir io = false ->
     w_dirs (after (zrmash_io_prepare P io w d sh fs fc)) = {[d]} ∪ w_dirs w).
Proof.
  unfold dag_path.
  machine_run.
  all: rewrite ?commit_nothing.
  all: split; [ intros p Hp | split; [ intros Hnot | split; intros Hmk ] ].
  all: try reflexivity; try congruence.
  all: try (exfalso; apply Hnot; apply list_elem_of_In; cbn; tauto).
  all: assert (Hne : s <> p) by congruence.
  all: rewrite ?commit_lookup_ne by exact Hne.
  all: rewrite ?lookup_insert_ne by exact Hne; reflexivity.
Qed.

Lemma prepare_touches_dag_file_only_witness :
  w_files (after (zrmash_io_prepare demo_platform no_faults demo_two_files_world
                    "dag" demo_seed 4 true)) !! "dag/other" = Some [x2a].
Proof.
  rewrite (proj1 (prepare_touches_dag_file_only demo_platform no_faults
                    demo_two_files_world "dag" demo_seed 4 true) "dag/other").
  - vm_compute. reflexivity.
  - vm_compute. discriminate.
Defined.

(** X5. A call that returns [ZRMASH_IO_FAIL] logs exactly one critical
    message, and one that returns [ZRMASH_IO_MEMO_MATCH] or
    [ZRMASH_IO_MEMO_MISMATCH] logs none. When the failure comes after the
    path of the DAG file was built, the message quotes that path. *)
Theorem prepare_logs_failures P io w d sh fs fc :
  (returned (zrmash_io_prepare P io w d sh fs fc) = ZRMASH_IO_FAIL ->
   exists msg, logged w (zrmash_io_prepare P io w d sh fs fc) = [msg]) /\
  (returned (zrmash_io_prepare P io w d sh fs fc) = ZRMASH_IO_MEMO_MATCH \/
   returned (zrmash_io_prepare P io w d sh fs fc) = ZRMASH_IO_MEMO_MISMATCH ->
   logged w (zrmash_io_prepare P io w d sh fs fc) = []) /\
  (forall path, dag_path P d sh = Some path -> fault_mkdir io = false ->
   returned (zrmash_io_prepare P io w d sh fs fc) = ZRMASH_IO_FAIL ->
   exists pre suf,
     logged w (zrmash_io_prepare P io w d sh fs fc) = [pre +:+ quoted path +:+ suf]).
Proof.
  unfold dag_path.
  machine_run.
  all: log_simpl.
  all: split; [ intros Hr; try discriminate Hr; eexists; reflexivity
              | split; [ intros [Hr|Hr]; try discriminate Hr; reflexivity
                       | intros path Hp Hmk Hr; try discriminate; try congruence ] ].
  all: injection Hp as <-.
  all: first [ apply message_names_path | eexists _, _; reflexivity ].
Qed.

Lemma prepare_logs_failures_witness :
  exists pre suf,
    logged empty_world
      (zrmash_io_prepare demo_platform flush_fault empty_world "dag" demo_seed 4 true)
    = [pre +:+ quoted "dag/full-R23" +:+ suf].
Proof.
  apply (proj2 (proj2 (prepare_logs_failures demo_platform flush_fault empty_world
                         "dag" demo_seed 4 true))).
  - reflexivity.
  - reflexivity.
  - vm_compute. reflexivity.
Defined.

(** X6. [ZRMASH_IO_FAIL] is returned only when the path cannot be built
    or a library call has failed that is not the read of the magic
    number. [ZRMASH_IO_MEMO_SIZE_MISMATCH] is returned only without
    [force_create] and only about a file that exists. *)
Theorem prepare_fail_has_cause P io w d sh fs fc :
  (returned (zrmash_io_prepare P io w d sh fs fc) = ZRMASH_IO_FAIL ->
   dag_path P d sh = None \/
   exists c, (c, false) ∈ calls_made w (zrmash_io_prepare P io w d sh fs fc) /\
             fatal_failure c = true) /\
  (returned (zrmash_io_prepare P io w d sh fs fc) = ZRMASH_IO_MEMO_SIZE_MISMATCH ->
   fc = false /\
   exists path, dag_path P d sh = Some path /\ is_Some (w_files w !! path)).
Proof.
  unfold dag_path.
  machine_run.
  all: calls_simpl.
  all: split; intros Hr; try discriminate Hr.
  all: try (left; reflexivity).
  all: try (right;
            match goal with
            | |- context [(?c, false)] =>
                exists c; split;
                [ apply list_elem_of_In; cbn [In]; tauto | reflexivity ]
            end).
  all: split; [ now destruct fc | eexists; split; [ reflexivity | eauto ] ].
Qed.

Lemma prepare_fail_has_cause_witness :
  dag_path demo_platform "dag" demo_seed = None \/
  exists c,
    (c, false) ∈ calls_made empty_world
      (zrmash_io_prepare demo_platform mkdir_fault empty_world "dag" demo_seed 4 false) /\
    fatal_failure c = true.
Proof.
  apply (proj1 (prepare_fail_has_cause demo_platform mkdir_fault empty_world
                  "dag" demo_seed 4 false)).
  vm_compute. reflexivity.
Defined.

(** ** How calls relate *)

(** X7. When there is no DAG file, a call without [force_create] does what
    a call with it does: same result, same stream handed over, same files,
    streams and log afterwards, and the same library calls but for the
    failed attempt to open the file. *)
Theorem prepare_absent_file_is_created P io w d sh fs path :
  dag_path P d sh = Some path ->
  w_files w !! path = None ->
  returned (zrmash_io_prepare P io w d sh fs false)
    = returned (zrmash_io_prepare P io w d sh fs true) /\
  stored (zrmash_io_prepare P io w d sh fs false)
    = stored (zrmash_io_prepare P io w d sh fs true) /\
  w_files (after (zrmash_io_prepare P io w d sh fs false))
    = w_files (after (zrmash_io_prepare P io w d sh fs true)) /\
  w_streams (after (zrmash_io_prepare P io w d sh fs false))
    = w_streams (after (zrmash_io_prepare P io w d sh fs true)) /\
  w_log (after (zrmash_io_prepare P io w d sh fs false))
    = w_log (after (zrmash_io_prepare P io w d sh fs true)) /\
  filter (fun e => opens_existing e.1 = false)
    (calls_made w (zrmash_io_prepare P io w d sh fs false))
    = calls_made w (zrmash_io_prepare P io w d sh fs true).
Proof.
  intros Hpath Hfile. unfold dag_path in Hpath.
  machine_run.
  all: machine_run.
  all: calls_simpl.
  all: repeat split; try reflexivity.
Qed.

Lemma prepare_absent_file_is_created_witness :
  returned (zrmash_io_prepare demo_platform no_faults empty_world "dag" demo_seed 4 false)
  = returned demo_creation.
Proof.
  apply (prepare_absent_file_is_created demo_platform no_faults empty_world "dag"
           demo_seed 4 "dag/full-R23").
  - reflexivity.
  - vm_compute. reflexivity.
Defined.

(** X8. A file that a successful run of the creation path has laid out and
    that nobody has filled since is not taken for a valid one: when the
    magic constant is not zero and the payload is not empty, the next call
    without [force_create] returns [ZRMASH_IO_MEMO_SIZE_MISMATCH] (given
    that its directory step, opening and size query succeed). *)
Theorem prepare_rejects_unfilled_file P io io' w d sh fs fc :
  1 <= fs -> fs + ZRMASH_DAG_MAGIC_NUM_SIZE < 2 ^ 64 ->
  ZRMASH_DAG_MAGIC_NUM P <> 0 ->
  creation_succeeded w (zrmash_io_prepare P io w d sh fs fc) ->
  fault_mkdir io' = false -> fault_fopen_rb io' = false ->
  fault_file_size io' = false ->
  returned (zrmash_io_prepare P io'
              (after (zrmash_io_prepare P io w d sh fs fc)) d sh fs false)
    = ZRMASH_IO_MEMO_SIZE_MISMATCH.
Proof.
  intros Hfs Hsum Hmagic Hok Hmk Hrb Hsz.
  assert (Hrange : 0 <= fs < 2 ^ 64)
    by (unfold ZRMASH_DAG_MAGIC_NUM_SIZE in Hsum; lia).
  destruct (creation_leaves_sentinel_file P io w d sh fs fc Hrange Hok)
    as (path & Hpath & Hfile).
  assert (Htotal : wrap64 (fs + ZRMASH_DAG_MAGIC_NUM_SIZE) = fs + ZRMASH_DAG_MAGIC_NUM_SIZE).
  { unfold wrap64. apply Z.mod_small. unfold ZRMASH_DAG_MAGIC_NUM_SIZE in *. lia. }
  rewrite Htotal in Hfile.
  eapply foreign_file_reported; try eassumption.
  - rewrite sentinel_length by (unfold ZRMASH_DAG_MAGIC_NUM_SIZE; lia). lia.
  - rewrite leading_magic_of_zeros; [ congruence | ].
    unfold ZRMASH_DAG_MAGIC_NUM_SIZE. lia.
Qed.

Lemma prepare_rejects_unfilled_file_witness :
  returned (zrmash_io_prepare demo_platform no_faults (after demo_creation)
              "dag" demo_seed 4 false)
  = ZRMASH_IO_MEMO_SIZE_MISMATCH.
Proof.
  apply (prepare_rejects_unfilled_file demo_platform no_faults no_faults empty_world
           "dag" demo_seed 4 true).
  - lia.
  - vm_compute. reflexivity.
  - vm_compute. discriminate.
  - split; [apply list_elem_of_In; vm_compute; tauto | vm_compute; reflexivity].
  - reflexivity.
  - reflexivity.
  - reflexivity.
Defined.

(** ** Control flow and sizes *)

(** X9. The statements of a run are executed in the order of their lines,
    none of them twice, and there are at most twelve of them: control only
    moves forward. *)
Theorem prepare_runs_forward P io w d sh fs fc :
  StronglySorted (fun a b => line a < line b)
    (path_taken (zrmash_io_prepare P io w d sh fs fc)) /\
  (length (path_taken (zrmash_io_prepare P io w d sh fs fc)) <= 12)%nat.
Proof.
  machine_run.
  all: split; [ repeat constructor | cbn [length]; lia ].
Qed.



End ZrmashIoMore.

(** * Package [zrm]: the other functions of [backend.go] *)

Module ZrmServiceProofs.

Import Zrm ZrmService.

(** ** Tactics and helper lemmas *)

Ltac not_in_list :=
  let Hin := fresh "Hin" in
  intros Hin; apply list_elem_of_In in Hin; cbn in Hin; intuition discriminate.

Ltac new_simpl H :=
  cbv beta iota zeta
      delta [call New CreateDB mbind M_bind mret M_ret act acts fail] in H.

Ltac new_split H :=
  match type of H with
  | context [match ?x with _ => _ end] =>
      lazymatch x with
      | context [match _ with _ => _ end] => fail
      | _ => destruct x eqn:?
      end
  end.


(** Follow a call of [New] along each of its paths. *)
Ltac new_run H :=
  new_simpl H; repeat (new_split H; new_simpl H; try discriminate H);
  repeat rewrite <- app_assoc in H; cbn [app] in H.

(** [CreateConsensusEngine] does nothing but log a warning. *)
Lemma CreateConsensusEngine_only_warns (X : externals) cfg cc db e l a :
  CreateConsensusEngine X cfg cc db = (e, l) -> In a l -> exists msg, a = LogWarn msg.
Proof.
  unfold CreateConsensusEngine. intros H Hin.
  destruct (Clique cc), (PowFake cfg), (PowTest cfg), (PowShared cfg);
    injection H as <- <-; cbn [In] in Hin; intuition (subst; eauto).
Qed.

(** An action that does not stand in an explicit record of actions. *)
Ltac not_in_trace Hin :=
  apply list_elem_of_In in Hin; cbn [In] in Hin;
  repeat (destruct Hin as [Hin|Hin]; [ discriminate Hin | ]);
  try (apply in_app_or in Hin; destruct Hin as [Hin|Hin];
       [ match goal with
         | Hc : CreateConsensusEngine _ _ _ _ = _ |- _ =>
             destruct (CreateConsensusEngine_only_warns _ _ _ _ _ _ _ Hc Hin) as [? Hw];
             discriminate Hw
         end
       | cbn [In] in Hin;
         repeat (destruct Hin as [Hin|Hin]; [ discriminate Hin | ]) ]);
  try contradiction.



(** ** [makeExtraData] *)

(** X11. The extra data that [makeExtraData] returns is never longer than
    [params.MaximumExtraDataSize], and it is the data given, the default
    data or no data at all: data over the limit is dropped, not cut. *)
Theorem makeExtraData_within_limit (X : externals) (extra : list byte) :
  0 <= MaximumExtraDataSize X ->
  Z.of_nat (length (makeExtraData X extra)) <= MaximumExtraDataSize X /\
  (makeExtraData X extra = extra \/
   makeExtraData X extra = DefaultExtraData X \/
   makeExtraData X extra = []) /\
  (MaximumExtraDataSize X < Z.of_nat (length extra) -> makeExtraData X extra = []).
Proof.
  intros H. unfold makeExtraData.
  destruct extra as [|b extra]; cbn [length Nat.eqb];
    destruct (MaximumExtraDataSize X <? _) eqn:E;
    try apply Z.ltb_ge in E; try apply Z.ltb_lt in E; cbn [length] in *.
  - split; [lia | split; [auto | reflexivity]].
  - split; [exact E | split; [auto | intros Hl; lia]].
  - split; [lia | split; [auto | reflexivity]].
  - split; [exact E | split; [auto | intros Hl; lia]].
Qed.

Lemma makeExtraData_within_limit_witness :
  Z.of_nat (length (makeExtraData demo_externals (replicate 40 x01))) <= 32.
Proof.
  apply (makeExtraData_within_limit demo_externals (replicate 40 x01)).
  vm_compute. discriminate.
Defined.

(** ** [Zeriumbase] and [SetZeriumbase] *)

(** X12. [Zeriumbase] returns an error exactly when no base is configured
    and there is no wallet or the first wallet has no account; wallets
    after the first are not looked at. With the error comes the zero
    address. *)
Theorem Zeriumbase_error_iff (s : Service) :
  ((Zeriumbase s).2 <> None <->
   zeriumbase (zrm s) = 0 /\ (wallets s = [] \/ exists ws, wallets s = [] :: ws)) /\
  ((Zeriumbase s).2 <> None -> (Zeriumbase s).1 = 0).
Proof.
  unfold Zeriumbase.
  destruct (Z.eqb_spec (zeriumbase (zrm s)) 0) as [E|E]; cbn [negb];
    [ destruct (wallets s) as [|[|a accounts] ws] | ]; cbn [fst snd].
  - split; [split; [intros _; split; [exact E | left; reflexivity] | discriminate]
           | reflexivity].
  - split; [split; [intros _; split; [exact E | right; exists ws; reflexivity]
                   | discriminate]
           | reflexivity].
  - split; [split; [congruence | intros [_ [H|[ws' H]]]; discriminate H]
           | congruence].
  - split; [split; [congruence | intros [H _]; contradiction] | congruence].
Qed.

Lemma Zeriumbase_error_iff_witness :
  (Zeriumbase (demo_service 0 zrmash_NewFaker [[]; [7]])).2 <> None.
Proof.
  apply (proj1 (Zeriumbase_error_iff (demo_service 0 zrmash_NewFaker [[]; [7]]))).
  split; [reflexivity | right; exists [[7]]; reflexivity].
Defined.

(** X13. After [SetZeriumbase] with an address that is not the zero
    address, [Zeriumbase] returns that address and no error. Setting the
    zero address clears the base: [Zeriumbase] then answers with the first
    account of the first wallet. The miner is given the address in both
    cases. *)
Theorem SetZeriumbase_then_Zeriumbase (s : Service) (a : Address) :
  (a <> 0 -> Zeriumbase (SetZeriumbase s a).1 = (a, None)) /\
  (a = 0 -> forall first rest ws, wallets s = (first :: rest) :: ws ->
     Zeriumbase (SetZeriumbase s a).1 = (first, None)) /\
  minerBase (SetZeriumbase s a).1 = a /\
  wallets (SetZeriumbase s a).1 = wallets s.
Proof.
  unfold Zeriumbase, SetZeriumbase. cbn [fst zrm set_zeriumbase zeriumbase wallets minerBase].
  repeat split.
  - intros H. apply Z.eqb_neq in H. now rewrite H.
  - intros -> first rest ws ->. reflexivity.
Qed.

Lemma SetZeriumbase_then_Zeriumbase_witness :
  Zeriumbase (SetZeriumbase (demo_service 0 zrmash_NewFaker []) 42).1 = (42, None).
Proof.
  apply (SetZeriumbase_then_Zeriumbase (demo_service 0 zrmash_NewFaker []) 42).
  discriminate.
Defined.

(** ** [StartMining] *)

(** X14. [StartMining] returns nil exactly when [Zeriumbase] succeeds and,
    if the engine is a clique engine, the account manager finds a wallet
    for the base without error. On an error the service is unchanged, the
    miner is not started and nothing is authorized. On success the last
    thing done is to start the miner with the base, [acceptTxs] is set to
    1 if and only if the mining is local, and the rest is unchanged. *)
Theorem StartMining_outcome Find (s : Service) (local : bool) :
  let r := StartMining Find s local in
  (r.1.1 = None <->
   (Zeriumbase s).2 = None /\
   (is_clique (engine (zrm s)) = true ->
    exists wallet, Find (wallets s) (Zeriumbase s).1 = (Some wallet, None))) /\
  (r.1.1 <> None ->
   r.1.2 = s /\ (forall eb, GoMinerStart eb ∉ r.2) /\
   (forall eb wallet, CliqueAuthorize eb wallet ∉ r.2)) /\
  (r.1.1 = None ->
   last r.2 = Some (GoMinerStart (Zeriumbase s).1) /\
   acceptTxs r.1.2 = (if local then 1 else acceptTxs s) /\
   zrm r.1.2 = zrm s).
Proof.
  cbv zeta. unfold StartMining.
  destruct (Zeriumbase s) as [eb [err|]] eqn:Hz;
    [ | destruct (is_clique (engine (zrm s))) eqn:Hc;
        [ destruct (Find (wallets s) eb) as [[wallet|] [e|]] eqn:Hf | ] ];
    destruct local; cbn [fst snd app last acceptTxs zrm set_acceptTxs].
  all: split; [ split | split ].
  (* 1a: result nil gives the conditions *)
  all: try (intros H; discriminate H).
  all: try (intros _; split; [ reflexivity | intros Hq; first [ discriminate Hq | eauto ] ]).
  (* 1b: the conditions give result nil *)
  all: try (intros [Hb Hw]; first [ reflexivity | discriminate Hb
                                  | destruct (Hw eq_refl) as [w' Hw']; congruence ]).
  (* 2: an error changes nothing *)
  all: try (intros Hne; first [ now contradiction Hne
                              | split; [ reflexivity | split; intros; not_in_list ] ]).
  (* 3 *)
  all: try (intros _; repeat split; reflexivity).
Qed.

Lemma StartMining_outcome_witness :
  (StartMining find_in (demo_service 7 (clique_New {| Period := 15; Epoch := 30000 |} 0%nat)
                          [[3]; [7; 9]]) true).1.1 = None.
Proof.
  apply (proj1 (StartMining_outcome find_in
                  (demo_service 7 (clique_New {| Period := 15; Epoch := 30000 |} 0%nat)
                     [[3]; [7; 9]]) true)).
  split; [reflexivity | intros _; exists [7; 9]; reflexivity].
Defined.

(** X15. With the engine that [CreateConsensusEngine] makes for a chain
    without proof-of-authority, [StartMining] never asks the account
    manager: its outcome is the same for every manager, and it succeeds
    exactly when [Zeriumbase] does. *)
Theorem StartMining_pow (X : externals) Find Find' (s : Service) (local : bool)
    (cfg : Config) (cc : ChainConfig) (db : Database) :
  Clique cc = None ->
  engine (zrm s) = (CreateConsensusEngine X cfg cc db).1 ->
  StartMining Find s local = StartMining Find' s local /\
  ((StartMining Find s local).1.1 = None <-> (Zeriumbase s).2 = None).
Proof.
  intros Hc He.
  assert (Hn : is_clique (engine (zrm s)) = false).
  { rewrite He. unfold CreateConsensusEngine. rewrite Hc.
    destruct (PowFake cfg), (PowTest cfg), (PowShared cfg); reflexivity. }
  unfold StartMining. rewrite Hn.
  destruct (Zeriumbase s) as [eb [err|]]; cbn [fst snd]; split; try reflexivity;
    split; intros H; try reflexivity; discriminate H.
Qed.

Lemma StartMining_pow_witness :
  (StartMining find_in
     (demo_service 7 (CreateConsensusEngine demo_externals tester_config pow_chain 0%nat).1 [])
     false).1.1 = None.
Proof.
  apply (proj2 (StartMining_pow demo_externals find_in find_in
                  (demo_service 7
                     (CreateConsensusEngine demo_externals tester_config pow_chain 0%nat).1 [])
                  false tester_config pow_chain 0%nat eq_refl eq_refl)).
  reflexivity.
Defined.

(** X16. With the engine that [CreateConsensusEngine] makes for a
    proof-of-authority chain, [StartMining] fails with a signer-missing
    error when the account manager has no wallet for the configured base;
    the service is unchanged and the miner is not started. *)
Theorem StartMining_clique_needs_signer (X : externals) Find (s : Service) (local : bool)
    (cfg : Config) (cc : ChainConfig) (db : Database) (clique : CliqueConfig) err :
  Clique cc = Some clique ->
  engine (zrm s) = (CreateConsensusEngine X cfg cc db).1 ->
  zeriumbase (zrm s) <> 0 ->
  Find (wallets s) (zeriumbase (zrm s)) = (None, err) ->
  StartMining Find s local =
    (Some ("signer missing: " +:+ fmt_v err), s,
     [LogError "Zeriumbase account unavailable locally"]).
Proof.
  intros Hc He Hb Hf.
  unfold StartMining, Zeriumbase. apply Z.eqb_neq in Hb. rewrite Hb. cbn [negb].
  rewrite He. unfold CreateConsensusEngine. rewrite Hc. cbn [fst is_clique].
  rewrite Hf. reflexivity.
Qed.

Lemma StartMining_clique_needs_signer_witness :
  StartMining find_in
    (demo_service 7 (CreateConsensusEngine demo_externals tester_config poa_chain 0%nat).1
       [[3]]) true
  = (Some ("signer missing: " +:+ "unknown account"),
     demo_service 7 (CreateConsensusEngine demo_externals tester_config poa_chain 0%nat).1
       [[3]],
     [LogError "Zeriumbase account unavailable locally"]).
Proof.
  apply (StartMining_clique_needs_signer demo_externals find_in
           (demo_service 7
              (CreateConsensusEngine demo_externals tester_config poa_chain 0%nat).1 [[3]])
           true tester_config poa_chain 0%nat {| Period := 15; Epoch := 30000 |}
           (Some "unknown account")).
  - reflexivity.
  - reflexivity.
  - discriminate.
  - reflexivity.
Defined.

(** ** [Start] *)



(** ** The light server *)

(** X18. After [AddLesServer] the protocols of the light server follow
    those of the protocol manager in [Protocols], [Start] starts the light
    server last and [Stop] stops it. A service without a light server
    offers the protocols of the protocol manager only, and neither starts
    nor stops a light server. *)
Theorem AddLesServer_effects (s : Service) (ls : LesServer) (MaxPeers : Z) :
  let s' := (AddLesServer s ls).1 in
  Protocols s' = SubProtocols s ++ les_Protocols ls /\
  last (Start s' MaxPeers).2 = Some LesServerStart /\
  LesServerStop ∈ (Stop s').2 /\
  (lesServer s = None ->
   Protocols s = SubProtocols s /\
   (LesServerStart ∉ (Start s MaxPeers).2) /\
   (LesServerStop ∉ (Stop s).2)).
Proof.
  cbv zeta. unfold Protocols, Start, Stop, AddLesServer. cbn [fst snd lesServer SubProtocols].
  repeat split.
  - apply list_elem_of_In. apply in_or_app. right. cbn. tauto.
  - rewrite H. reflexivity.
  - rewrite H. intros Hin. apply list_elem_of_In in Hin. cbn in Hin. intuition discriminate.
  - rewrite H. intros Hin. apply list_elem_of_In in Hin.
    apply in_app_or in Hin. destruct Hin as [Hin|Hin].
    + destruct (stopDbUpgrade s); cbn in Hin; intuition discriminate.
    + cbn in Hin. intuition discriminate.
Qed.

Lemma AddLesServer_effects_witness :
  Protocols (demo_service 0 zrmash_NewFaker []) = [63; 62] /\
  (LesServerStart ∉ (Start (demo_service 0 zrmash_NewFaker []) 25).2) /\
  (LesServerStop ∉ (Stop (demo_service 0 zrmash_NewFaker [])).2).
Proof.
  apply (AddLesServer_effects (demo_service 0 zrmash_NewFaker []) {| les_Protocols := [] |} 25).
  reflexivity.
Defined.

(** ** [New], past the checks of the sync mode *)



(** X20. With [SkipBcVersionCheck] set, [New] never writes the block
    chain version. Without it, when the version found in the database is
    neither the current one nor zero, [New] returns an error and neither
    creates the block chain nor writes the version. *)
Theorem New_version_gate (X : externals) (cfg : Config) :
  (SkipBcVersionCheck cfg = true ->
   forall db v, DoWriteBlockChainVersion db v ∉ (call (New X cfg)).2) /\
  (SkipBcVersionCheck cfg = false ->
   (forall db, OpenDatabase X "chaindata" (DatabaseCache cfg) (DatabaseHandles cfg) = inl db ->
      GetBlockChainVersion X db <> BlockChainVersion X /\
      GetBlockChainVersion X db <> 0) ->
   (exists e, (call (New X cfg)).1 = inr e) /\
   (forall db, DoNewBlockChain db ∉ (call (New X cfg)).2) /\
   (forall db v, DoWriteBlockChainVersion db v ∉ (call (New X cfg)).2)).
Proof.
  destruct (call (New X cfg)) as [res done] eqn:H. cbn [fst snd].
  new_run H.
  all: injection H as <- <-.
  all: split; [ intros Hskip | intros Hskip Hver ].
  all: try (rewrite Hskip in *; discriminate).
  all: try (intros db v Hin; not_in_trace Hin).
  all: try (exfalso;
            match goal with
            | Hb : negb (_ =? _) && negb (_ =? _) = false |- _ =>
                let H1 := fresh in let H2 := fresh in
                destruct (Hver _ eq_refl) as [H1 H2];
                apply Z.eqb_neq in H1; apply Z.eqb_neq in H2;
                rewrite H1, H2 in Hb; discriminate Hb
            end).
  all: split; [ eexists; reflexivity
              | split; [ intros db Hin | intros db v Hin ]; not_in_trace Hin ].
Qed.

Lemma New_version_gate_witness :
  exists e, (call (New (sample_externals 2 GenesisOk)
                     (DefaultConfig (sample_externals 2 GenesisOk)))).1 = inr e.
Proof.
  apply (proj2 (New_version_gate (sample_externals 2 GenesisOk)
                  (DefaultConfig (sample_externals 2 GenesisOk)))).
  - reflexivity.
  - intros db _. split; discriminate.
Defined.



End ZrmServiceProofs.
